(** * AI market analysis pipeline (backend/analysis.py)

    A shallow embedding of the four steps of the script: load the CSV,
    fit two single-feature linear regressions, extrapolate, and write the
    merged CSV and the JSON report.

    Numbers.  Years are Python integers (Z).  Market sizes, adoption rates,
    coefficients and predictions are float64 in the script; here they are
    exact rationals (Q, compared with [==]), so the statements below are
    about the arithmetic the script asks for, not about rounding in the
    last bit.  The one special float that the script can produce from
    finite input, NaN (the R² of a single sample), is kept as a value of
    its own. *)

From Stdlib Require Import ZArith QArith Qabs Qround List String Bool Lia Lqa.
From Stdlib Require Import Sorting.Sorted Setoid Morphisms.
Import ListNotations.

Local Open Scope Q_scope.

(** ** Exceptions and the world the script runs in *)

Inductive exn : Type :=
| FileNotFoundError
| ValueError.

Definition exn_eqb (a b : exn) : bool :=
  match a, b with
  | FileNotFoundError, FileNotFoundError => true
  | ValueError, ValueError => true
  | _, _ => false
  end.

(** ** Numeric helpers (numpy) *)

Module Np.

Definition sum (l : list Q) : Q := fold_right Qplus 0 l.

Definition size (l : list Q) : Q := inject_Z (Z.of_nat (List.length l)).

Definition mean (l : list Q) : Q := sum l / size l.

Definition dot (u v : list Q) : Q :=
  sum (map (fun p => fst p * snd p) (combine u v)).

(** Python's [range(a, b)]. *)
Definition range (a b : Z) : list Z :=
  map (fun k => (a + Z.of_nat k)%Z) (seq 0 (Z.to_nat (b - a))).

End Np.

(** ** sklearn.linear_model.LinearRegression, one feature

    The estimator is scikit-learn's, a library that is not part of the
    repository; the script only constructs it, fits it and calls predict. *)

Record LinearRegression : Type := {
  coef_ : Q;
  intercept_ : Q
}.

(** Modelled from the spec: the least-squares solver behind
    [LinearRegression.fit] (library code, not under src/), for one centred
    feature: the coefficient minimising the squared residuals, and the
    minimum-norm solution 0 when the feature has no spread. *)
Definition lstsq (a b : list Q) : Q :=
  if Qeq_bool (Np.dot a a) 0 then 0 else Np.dot a b / Np.dot a a.

(** Modelled from the spec: [LinearRegression().fit(X, y)] (library code, not
    under src/) is ordinary least squares with an intercept, computed the way
    the library does: centre the feature and the target on their means,
    solve the centred problem, and recover the intercept from the means.
    Fitting zero samples raises ValueError. *)
Definition fit (X y : list Q) : exn + LinearRegression :=
  match X with
  | [] => inl ValueError
  | _ :: _ =>
      let X_offset := Np.mean X in
      let y_offset := Np.mean y in
      let Xc := map (fun x => x - X_offset) X in
      let yc := map (fun v => v - y_offset) y in
      let coef := lstsq Xc yc in
      inr {| coef_ := coef; intercept_ := y_offset - X_offset * coef |}
  end.

(** Modelled from the spec: [model.predict(X)] (library code, not under
    src/) evaluates the fitted line, [X @ coef_ + intercept_]. *)
Definition predict (m : LinearRegression) (X : list Q) : list Q :=
  map (fun x => x * coef_ m + intercept_ m) X.

(** ** sklearn.metrics.r2_score *)

Inductive pyfloat : Type :=
| nan
| fin (q : Q).

Definition ss_res (y_true y_pred : list Q) : Q :=
  Np.sum (map (fun p => (fst p - snd p) * (fst p - snd p)) (combine y_true y_pred)).

Definition ss_tot (y_true : list Q) : Q :=
  Np.sum (map (fun v => (v - Np.mean y_true) * (v - Np.mean y_true)) y_true).

(** Modelled from the spec: [r2_score(y_true, y_pred)] (library code, not
    under src/) is R² = 1 − Σ(y−ŷ)² / Σ(y−ȳ)², with the library's conventions
    around it: fewer than two samples give NaN, a zero numerator gives 1.0
    whatever the denominator, and a zero denominator with a non-zero
    numerator gives 0.0. *)
Definition r2_score (y_true y_pred : list Q) : pyfloat :=
  if (List.length y_pred <? 2)%nat then nan
  else
    let numerator := ss_res y_true y_pred in
    let denominator := ss_tot y_true in
    if Qeq_bool numerator 0 then fin 1
    else if Qeq_bool denominator 0 then fin 0
    else fin (1 - numerator / denominator).

(** Python's [round(x, ndigits)] on a float: round half to even at the
    given decimal place; NaN stays NaN. *)
Definition round_half_even (q : Q) : Z :=
  let f := Qfloor q in
  match Qcompare (q - inject_Z f) (1 # 2) with
  | Lt => f
  | Gt => (f + 1)%Z
  | Eq => if Z.even f then f else (f + 1)%Z
  end.

Definition round (x : Q) (ndigits : nat) : Q :=
  let scale := inject_Z (10 ^ Z.of_nat ndigits) in
  inject_Z (round_half_even (x * scale)) / scale.

Definition round_float (x : pyfloat) (ndigits : nat) : pyfloat :=
  match x with
  | nan => nan
  | fin q => fin (round q ndigits)
  end.

(** ** Frames

    [df] as loaded has the columns Year, MarketSize, AdoptionRate; a frame
    is the list of its rows and a column is the projection of the rows. *)

Record MarketRecord : Type := {
  Year : Z;
  MarketSize : Q;
  AdoptionRate : Q
}.

Definition Dataset : Type := list MarketRecord.

Module Forecast.

Record row : Type := {
  Year : Z;
  PredictedMarketSize : Q;
  PredictedAdoptionRate : Q
}.

(** [pd.DataFrame({'Year': ..., 'PredictedMarketSize': ...,
    'PredictedAdoptionRate': ...})]: the rows of three columns. *)
Definition DataFrame (years : list Z) (market adoption : list Q) : list row :=
  map (fun t => {| Year := fst t;
                   PredictedMarketSize := fst (snd t);
                   PredictedAdoptionRate := snd (snd t) |})
      (combine years (combine market adoption)).

End Forecast.

Module Combined.

(** A row of [combined_df]; [None] is a missing cell. *)
Record row : Type := {
  Year : Z;
  MarketSize : option Q;
  AdoptionRate : option Q;
  PredictedMarketSize : option Q;
  PredictedAdoptionRate : option Q;
  Type_ : string
}.

Definition zip_rows (years : list Z) (ms ar pms par : list (option Q))
    (ty : list string) : list row :=
  map (fun t =>
         {| Year := fst t;
            MarketSize := fst (snd t);
            AdoptionRate := fst (snd (snd t));
            PredictedMarketSize := fst (snd (snd (snd t)));
            PredictedAdoptionRate := fst (snd (snd (snd (snd t))));
            Type_ := snd (snd (snd (snd (snd t)))) |})
      (combine years (combine ms (combine ar (combine pms (combine par ty))))).

(** [pd.DataFrame] of a dict of six lists: the lists must have one length
    (ValueError otherwise), and row [i] takes entry [i] of each. *)
Definition DataFrame (years : list Z) (ms ar pms par : list (option Q))
    (ty : list string) : exn + list row :=
  let n := List.length years in
  if ((List.length ms =? n) && (List.length ar =? n) && (List.length pms =? n)
      && (List.length par =? n) && (List.length ty =? n))%nat
  then inr (zip_rows years ms ar pms par ty)
  else inl ValueError.

End Combined.

(** ** CSV text, field by field

    A written file is its header and its lines; a line is the list of its
    comma-separated fields.  A numeric field is kept as the number whose
    decimal text it is; a missing cell is written as the empty field.  What
    pandas does to the numbers on the way is not modelled: the conversion of
    a column padded with None to float64, and the decimal text of a float. *)

Inductive field : Type :=
| Empty
| IntField (z : Z)
| NumField (q : Q)
| Text (s : string).

Record csv : Type := {
  header : list string;
  lines : list (list field)
}.

Definition header_line (c : csv) : string := String.concat "," (header c).

Definition opt_field (o : option Q) : field :=
  match o with
  | None => Empty
  | Some q => NumField q
  end.

Definition combined_columns : list string :=
  ["Year"; "MarketSize"; "AdoptionRate"; "PredictedMarketSize";
   "PredictedAdoptionRate"; "Type"]%string.

(** [combined_df.to_csv(path, index=False)] *)
Definition to_csv (rows : list Combined.row) : csv :=
  {| header := combined_columns;
     lines := map (fun r =>
                     [IntField (Combined.Year r);
                      opt_field (Combined.MarketSize r);
                      opt_field (Combined.AdoptionRate r);
                      opt_field (Combined.PredictedMarketSize r);
                      opt_field (Combined.PredictedAdoptionRate r);
                      Text (Combined.Type_ r)]) rows |}.

(** ** The JSON report *)

Module HistoricalEntry.
Record t : Type := {
  year : Z;
  market_size : Q;
  adoption_rate : Q
}.
End HistoricalEntry.

Module PredictionEntry.
Record t : Type := {
  year : Z;
  predicted_market_size : Q;
  predicted_adoption_rate : Q
}.
End PredictionEntry.

Record model_performance_t : Type := {
  market_r2_score : pyfloat;
  adoption_r2_score : pyfloat
}.

Record json_data_t : Type := {
  model_performance : model_performance_t;
  historical_data : list HistoricalEntry.t;
  predictions : list PredictionEntry.t
}.

(** ** The world: files and standard output

    A file is known by what it holds.  The input file is a table with the
    header Year,MarketSize,AdoptionRate, held as its parsed rows; the two
    result files hold what the script writes.  Directories are not
    modelled: writing to a path always succeeds.  A printed line is the
    list of the pieces of its f-string. *)

Inductive file : Type :=
| MarketCsv (rows : Dataset)
| ResultsCsv (c : csv)
| ResultsJson (j : json_data_t).

Inductive piece : Type :=
| Str (s : string)
| Len (n : nat)
| Fixed4 (x : pyfloat)
| Head (rows : Dataset)
| ShapeOf (nrows ncols : nat)
| Frame (rows : list Forecast.row).

Definition line : Type := list piece.

Record World : Type := {
  files : string -> option file;
  stdout : list line
}.

Definition write_file (path : string) (f : file) (w : World) : World :=
  {| files := fun p => if String.eqb p path then Some f else files w p;
     stdout := stdout w |}.

(** Computations that read and change the world and may raise. *)
Definition M (A : Type) : Type := World -> (exn + A) * World.

Definition ret {A : Type} (a : A) : M A := fun w => (inr a, w).

Definition bind {A B : Type} (m : M A) (k : A -> M B) : M B :=
  fun w =>
    match m w with
    | (inl e, w') => (inl e, w')
    | (inr a, w') => k a w'
    end.

Definition lift {A : Type} (r : exn + A) : M A := fun w => (r, w).

(** [try: body except e: handler] *)
Definition try_except {A : Type} (body : M A) (e : exn) (handler : M A) : M A :=
  fun w =>
    match body w with
    | (inl e', w') => if exn_eqb e e' then handler w' else (inl e', w')
    | (inr a, w') => (inr a, w')
    end.

Declare Scope py_scope.
Delimit Scope py_scope with py.
Notation "x <- m ;; k" := (bind m (fun x => k))
  (at level 61, m at next level, right associativity) : py_scope.
Notation "m ;; k" := (bind m (fun _ => k))
  (at level 61, right associativity) : py_scope.
Local Open Scope py_scope.
Local Open Scope string_scope.

Definition print (l : line) : M unit :=
  fun w => (inr tt, {| files := files w; stdout := stdout w ++ [l] |}).

(** [os.path.join], with the POSIX separator. *)
Definition path_join (a b : string) : string := a ++ "/" ++ b.

(** [pd.read_csv(path)] for a file of the input format.  A missing file
    raises FileNotFoundError.  Only input in the format of the input file is
    modelled: for a file that holds something else the model answers with
    ValueError, which stands for whatever pandas and the later steps make of
    such a file, and no property below is about that case. *)
Definition read_csv (path : string) : M Dataset :=
  fun w =>
    match files w path with
    | None => (inl FileNotFoundError, w)
    | Some (MarketCsv rows) => (inr rows, w)
    | Some _ => (inl ValueError, w)
    end.

(** Writing a file.  The directory data/ is taken to exist and to be
    writable, so a write succeeds; a failing write (OSError) is not
    modelled. *)
Definition write_csv (path : string) (c : csv) : M unit :=
  fun w => (inr tt, write_file path (ResultsCsv c) w).

(** [with open(path, 'w') as f: json.dump(data, f, indent=2)] *)
Definition json_dump (path : string) (j : json_data_t) : M unit :=
  fun w => (inr tt, write_file path (ResultsJson j) w).

(** ** The script *)

Definition load_data : M (option Dataset) :=
  let data_path := path_join "data" "ai_market.csv" in
  try_except
    (df <- read_csv data_path ;;
     print [Str "Loaded "; Len (List.length df); Str " records from "; Str data_path] ;;
     ret (Some df))
    FileNotFoundError
    (print [Str "Error: ai_market.csv not found in data/ directory"] ;;
     ret None).

Definition perform_regression (df : Dataset)
  : M (LinearRegression * LinearRegression * pyfloat * pyfloat) :=
  let X := map (fun r => inject_Z (Year r)) df in
  let y_market := map MarketSize df in
  let y_adoption := map AdoptionRate df in
  model_market <- lift (fit X y_market) ;;
  model_adoption <- lift (fit X y_adoption) ;;
  let market_predictions := predict model_market X in
  let adoption_predictions := predict model_adoption X in
  let market_r2 := r2_score y_market market_predictions in
  let adoption_r2 := r2_score y_adoption adoption_predictions in
  print [Str "Market Size Model R² Score: "; Fixed4 market_r2] ;;
  print [Str "Adoption Rate Model R² Score: "; Fixed4 adoption_r2] ;;
  ret (model_market, model_adoption, market_r2, adoption_r2).

(** The list comprehension gives one row [[base_year + i]] per [i]; when
    there is none, [np.array([])] is one-dimensional and [predict] rejects
    it with a ValueError. *)
Definition generate_future_predictions (model_market model_adoption : LinearRegression)
    (base_year years_ahead : Z) : exn + list Forecast.row :=
  let future_years := map (fun i => (base_year + i)%Z) (Np.range 1 (years_ahead + 1)) in
  match future_years with
  | [] => inl ValueError
  | _ :: _ =>
      let future_market := predict model_market (map inject_Z future_years) in
      let future_adoption := predict model_adoption (map inject_Z future_years) in
      inr (Forecast.DataFrame future_years future_market future_adoption)
  end.

Definition base_year_default : Z := 2024.
Definition years_ahead_default : Z := 5.

Definition save_results (df_original : Dataset) (df_predictions : list Forecast.row)
    (market_r2 adoption_r2 : pyfloat) : M json_data_t :=
  combined_df <- lift (Combined.DataFrame
    (map Year df_original ++ map Forecast.Year df_predictions)
    (map (fun r => Some (MarketSize r)) df_original
       ++ repeat None (List.length df_predictions))
    (map (fun r => Some (AdoptionRate r)) df_original
       ++ repeat None (List.length df_predictions))
    (repeat None (List.length df_original)
       ++ map (fun r => Some (Forecast.PredictedMarketSize r)) df_predictions)
    (repeat None (List.length df_original)
       ++ map (fun r => Some (Forecast.PredictedAdoptionRate r)) df_predictions)
    (repeat "Historical" (List.length df_original)
       ++ repeat "Predicted" (List.length df_predictions))) ;;
  let csv_path := path_join "data" "ai_analysis_results.csv" in
  write_csv csv_path (to_csv combined_df) ;;
  print [Str "Results saved to "; Str csv_path] ;;
  let json_data :=
    {| model_performance :=
         {| market_r2_score := round_float market_r2 4;
            adoption_r2_score := round_float adoption_r2 4 |};
       historical_data :=
         map (fun row =>
                {| HistoricalEntry.year := Year row;
                   HistoricalEntry.market_size := MarketSize row;
                   HistoricalEntry.adoption_rate := AdoptionRate row |})
             df_original;
       predictions :=
         map (fun row =>
                {| PredictionEntry.year := Forecast.Year row;
                   PredictionEntry.predicted_market_size :=
                     round (Forecast.PredictedMarketSize row) 2;
                   PredictionEntry.predicted_adoption_rate :=
                     round (Forecast.PredictedAdoptionRate row) 2 |})
             df_predictions |} in
  let json_path := path_join "data" "ai_analysis_results.json" in
  json_dump json_path json_data ;;
  print [Str "JSON results saved to "; Str json_path] ;;
  ret json_data.

Definition newline : string := String (Ascii.ascii_of_nat 10) EmptyString.

Definition main : M unit :=
  print [Str "=== AI Market Analysis Started ==="] ;;
  df <- load_data ;;
  match df with
  | None => ret tt
  | Some df =>
      print [Str (newline ++ "Dataset Overview:")] ;;
      print [Head (firstn 5 df)] ;;
      print [Str (newline ++ "Data shape: "); ShapeOf (List.length df) 3] ;;
      print [Str (newline ++ "=== Performing Linear Regression ===")] ;;
      fitted <- perform_regression df ;;
      let '(model_market, model_adoption, market_r2, adoption_r2) := fitted in
      print [Str (newline ++ "=== Generating Future Predictions ===")] ;;
      predictions_df <- lift (generate_future_predictions model_market model_adoption
                                base_year_default years_ahead_default) ;;
      print [Str "Future Predictions:"] ;;
      print [Frame predictions_df] ;;
      print [Str (newline ++ "=== Saving Results ===")] ;;
      json_data <- save_results df predictions_df market_r2 adoption_r2 ;;
      print [Str (newline ++ "=== Analysis Complete ===")] ;;
      print [Str "Files generated:"] ;;
      print [Str "- data/ai_analysis_results.csv"] ;;
      print [Str "- data/ai_analysis_results.json"] ;;
      print [Str (newline ++ "You can now open frontend/index.html to view the dashboard!")] ;;
      ret tt
  end.

(** ** The estimators as objects

    In the script an estimator is a Python object.  [LinearRegression()]
    makes a new one without fitted attributes, [fit] stores [coef_] and
    [intercept_] in the object it is called on, and [predict] reads them;
    [perform_regression] makes and fits two estimators and hands the objects
    themselves to [generate_future_predictions].  Here the objects live in a
    store beside the world, a reference is the position of its object in
    the store, and the two functions are written once more over
    references, statement by statement. *)

Module Obj.

Definition ref : Type := nat.

(** An object is [None] until it is fitted. *)
Record Store : Type := {
  objects : list (option LinearRegression);
  world : World
}.

Definition Run (A : Type) : Type := Store -> (exn + A) * Store.

Definition ret {A : Type} (a : A) : Run A := fun s => (inr a, s).

Definition bind {A B : Type} (m : Run A) (k : A -> Run B) : Run B :=
  fun s =>
    match m s with
    | (inl e, s') => (inl e, s')
    | (inr a, s') => k a s'
    end.

(** A step that only concerns files and standard output. *)
Definition in_world {A : Type} (m : M A) : Run A :=
  fun s =>
    match m (world s) with
    | (r, w') => (r, {| objects := objects s; world := w' |})
    end.

Declare Scope obj_scope.
Notation "x <- m ;; k" := (bind m (fun x => k))
  (at level 61, m at next level, right associativity) : obj_scope.
Notation "m ;; k" := (bind m (fun _ => k))
  (at level 61, right associativity) : obj_scope.
Local Open Scope obj_scope.

(** [LinearRegression()] *)
Definition LinearRegression_new : Run ref :=
  fun s => (inr (List.length (objects s)),
            {| objects := (objects s ++ [None])%list; world := world s |}).

Definition store_fitted (self : ref) (m : LinearRegression)
    (l : list (option LinearRegression)) : list (option LinearRegression) :=
  (firstn self l ++ Some m :: skipn (S self) l)%list.

(** [self.fit(X, y)]: the fitted attributes are written into the object.
    A reference always names an object of the store in a run of the script;
    for a position beyond the store the call is answered with ValueError. *)
Definition method_fit (self : ref) (X y : list Q) : Run unit :=
  fun s =>
    match nth_error (objects s) self with
    | None => (inl ValueError, s)
    | Some _ =>
        match fit X y with
        | inl e => (inl e, s)
        | inr m => (inr tt, {| objects := store_fitted self m (objects s);
                               world := world s |})
        end
    end.

(** [self.predict(X)]: an estimator that is not fitted raises
    NotFittedError, which is a ValueError; an array without rows is rejected
    with ValueError; otherwise the fitted line is evaluated. *)
Definition method_predict (self : ref) (X : list Q) : Run (list Q) :=
  fun s =>
    match nth_error (objects s) self with
    | Some (Some m) =>
        match X with
        | [] => (inl ValueError, s)
        | _ :: _ => (inr (predict m X), s)
        end
    | _ => (inl ValueError, s)
    end.

Definition perform_regression (df : Dataset) : Run (ref * ref * pyfloat * pyfloat) :=
  let X := map (fun r => inject_Z (Year r)) df in
  let y_market := map MarketSize df in
  let y_adoption := map AdoptionRate df in
  model_market <- LinearRegression_new ;;
  model_adoption <- LinearRegression_new ;;
  method_fit model_market X y_market ;;
  method_fit model_adoption X y_adoption ;;
  market_predictions <- method_predict model_market X ;;
  adoption_predictions <- method_predict model_adoption X ;;
  let market_r2 := r2_score y_market market_predictions in
  let adoption_r2 := r2_score y_adoption adoption_predictions in
  in_world (print [Str "Market Size Model R² Score: "; Fixed4 market_r2]) ;;
  in_world (print [Str "Adoption Rate Model R² Score: "; Fixed4 adoption_r2]) ;;
  ret (model_market, model_adoption, market_r2, adoption_r2).

Definition generate_future_predictions (model_market model_adoption : ref)
    (base_year years_ahead : Z) : Run (list Forecast.row) :=
  let future_years := map (fun i => (base_year + i)%Z) (Np.range 1 (years_ahead + 1)) in
  future_market <- method_predict model_market (map inject_Z future_years) ;;
  future_adoption <- method_predict model_adoption (map inject_Z future_years) ;;
  ret (Forecast.DataFrame future_years future_market future_adoption).

(** Two calls of the forecaster in a row, with both results. *)
Definition forecast_twice (model_market model_adoption : ref)
    (base_year years_ahead : Z) : Run (list Forecast.row * list Forecast.row) :=
  first <- generate_future_predictions model_market model_adoption
             base_year years_ahead ;;
  second <- generate_future_predictions model_market model_adoption
              base_year years_ahead ;;
  ret (first, second).

End Obj.

(** ** Notions used to state the properties *)

Definition data_path : string := path_join "data" "ai_market.csv".
Definition csv_path : string := path_join "data" "ai_analysis_results.csv".
Definition json_path : string := path_join "data" "ai_analysis_results.json".

(** A world with no file and nothing printed. *)
Definition empty_world : World := {| files := fun _ => None; stdout := [] |}.

(** A world whose only file is the input table. *)
Definition world_with (df : Dataset) : World :=
  write_file data_path (MarketCsv df) empty_world.

(** The three-row scenario of the specification. *)
Definition scenario : Dataset :=
  [ {| Year := 2020; MarketSize := 100; AdoptionRate := 10 |};
    {| Year := 2021; MarketSize := 150; AdoptionRate := 15 |};
    {| Year := 2022; MarketSize := 200; AdoptionRate := 20 |} ].

(** A table whose years lie after the fixed base year. *)
Definition late_dataset : Dataset :=
  [ {| Year := 2029; MarketSize := 10; AdoptionRate := 1 |};
    {| Year := 2030; MarketSize := 20; AdoptionRate := 2 |} ].

(** The vertical residual of the fitted line at an observation. *)
Definition residual (m : LinearRegression) (x y : Q) : Q :=
  y - (x * coef_ m + intercept_ m).

Definition year_of (r : MarketRecord) : Q := inject_Z (Year r).

(** Sum of squared residuals of the line [a * year + b] on a target. *)
Definition sse (target : MarketRecord -> Q) (a b : Q) (df : Dataset) : Q :=
  Np.sum (map (fun r => (target r - (year_of r * a + b))
                        * (target r - (year_of r * a + b))) df).

Definition two_distinct_years (df : Dataset) : Prop :=
  exists r1 r2, In r1 df /\ In r2 df /\ Year r1 <> Year r2.

Definition on_a_line (target : MarketRecord -> Q) (df : Dataset) : Prop :=
  exists a b : Q, forall r, In r df -> target r == a * year_of r + b.

(** Agreement within numeric tolerance: a relative error of at most 1e-6,
    the tolerance the specification names. *)
Definition within_tolerance (x expected : Q) : Prop :=
  Qabs (x - expected) <= (1 # 1000000) * Qabs expected.

(** The forecast row of a year: both fitted lines evaluated there. *)
Definition forecast_row (model_market model_adoption : LinearRegression) (y : Z)
  : Forecast.row :=
  {| Forecast.Year := y;
     Forecast.PredictedMarketSize :=
       inject_Z y * coef_ model_market + intercept_ model_market;
     Forecast.PredictedAdoptionRate :=
       inject_Z y * coef_ model_adoption + intercept_ model_adoption |}.

(** The row of [combined_df] that a historical record contributes, and the
    row that a forecast row contributes. *)
Definition historical_row (r : MarketRecord) : Combined.row :=
  {| Combined.Year := Year r;
     Combined.MarketSize := Some (MarketSize r);
     Combined.AdoptionRate := Some (AdoptionRate r);
     Combined.PredictedMarketSize := None;
     Combined.PredictedAdoptionRate := None;
     Combined.Type_ := "Historical" |}.

Definition predicted_row (p : Forecast.row) : Combined.row :=
  {| Combined.Year := Forecast.Year p;
     Combined.MarketSize := None;
     Combined.AdoptionRate := None;
     Combined.PredictedMarketSize := Some (Forecast.PredictedMarketSize p);
     Combined.PredictedAdoptionRate := Some (Forecast.PredictedAdoptionRate p);
     Combined.Type_ := "Predicted" |}.

(** The report that [save_results] builds and returns. *)
Definition report (df_original : Dataset) (df_predictions : list Forecast.row)
    (market_r2 adoption_r2 : pyfloat) : json_data_t :=
  {| model_performance :=
       {| market_r2_score := round_float market_r2 4;
          adoption_r2_score := round_float adoption_r2 4 |};
     historical_data :=
       map (fun row =>
              {| HistoricalEntry.year := Year row;
                 HistoricalEntry.market_size := MarketSize row;
                 HistoricalEntry.adoption_rate := AdoptionRate row |})
           df_original;
     predictions :=
       map (fun row =>
              {| PredictionEntry.year := Forecast.Year row;
                 PredictionEntry.predicted_market_size :=
                   round (Forecast.PredictedMarketSize row) 2;
                 PredictionEntry.predicted_adoption_rate :=
                   round (Forecast.PredictedAdoptionRate row) 2 |})
           df_predictions |}.

(** * Properties *)

(** ** Sums over a list *)

Lemma Qsq_nonneg (x : Q) : 0 <= x * x.
Proof. nra. Qed.

Section Sums.
Context {A : Type}.
Implicit Types (f g h : A -> Q) (l : list A).

Lemma sum_map_ext f g l :
  (forall x, In x l -> f x == g x) ->
  Np.sum (map f l) == Np.sum (map g l).
Proof.
  induction l as [|x l IH]; intros Hfg; simpl.
  - reflexivity.
  - assert (Hx : f x == g x) by (apply Hfg; now left).
    assert (Hl : Np.sum (map f l) == Np.sum (map g l)).
    { apply IH. intros y Hy. apply Hfg. now right. }
    rewrite Hx, Hl. reflexivity.
Qed.

Lemma sum_map_lin2 (c1 c2 : Q) f g l :
  Np.sum (map (fun x => c1 * f x + c2 * g x) l)
  == c1 * Np.sum (map f l) + c2 * Np.sum (map g l).
Proof.
  induction l as [|x l IH]; simpl.
  - ring.
  - rewrite IH. ring.
Qed.

Lemma sum_map_lin3 (c1 c2 c3 : Q) f g h l :
  Np.sum (map (fun x => c1 * f x + c2 * g x + c3 * h x) l)
  == c1 * Np.sum (map f l) + c2 * Np.sum (map g l) + c3 * Np.sum (map h l).
Proof.
  induction l as [|x l IH]; simpl.
  - ring.
  - rewrite IH. ring.
Qed.

Lemma sum_map_const (c : Q) l :
  Np.sum (map (fun _ => c) l) == inject_Z (Z.of_nat (List.length l)) * c.
Proof.
  induction l as [|x l IH].
  - simpl. ring.
  - change (Np.sum (map (fun _ => c) (x :: l)))
      with (c + Np.sum (map (fun _ => c) l)).
    rewrite IH. simpl List.length. rewrite Nat2Z.inj_succ, <- Z.add_1_l.
    rewrite inject_Z_plus. ring.
Qed.

Lemma sum_sq_nonneg f l : 0 <= Np.sum (map (fun x => f x * f x) l).
Proof.
  induction l as [|x l IH]; simpl.
  - apply Qle_refl.
  - pose proof (Qsq_nonneg (f x)) as Hx. lra.
Qed.

Lemma sum_sq_zero f l :
  Np.sum (map (fun x => f x * f x) l) == 0 ->
  forall x, In x l -> f x == 0.
Proof.
  induction l as [|y l IH]; simpl; intros Hs x Hin.
  - contradiction.
  - pose proof (Qsq_nonneg (f y)) as Hy.
    pose proof (sum_sq_nonneg f l) as Hl.
    assert (Hy0 : f y * f y == 0) by lra.
    assert (Hl0 : Np.sum (map (fun x => f x * f x) l) == 0) by lra.
    destruct Hin as [<- | Hin].
    + apply Qmult_integral in Hy0. tauto.
    + now apply IH.
Qed.

Lemma combine_map f g l :
  combine (map f l) (map g l) = map (fun x => (f x, g x)) l.
Proof.
  induction l as [|x l IH]; simpl; [reflexivity | now rewrite IH].
Qed.

End Sums.

Lemma size_pos {A : Type} (l : list A) :
  l <> [] -> 0 < inject_Z (Z.of_nat (List.length l)).
Proof.
  intros Hne. destruct l as [|x l]; [contradiction|].
  change 0 with (inject_Z 0). rewrite <- Zlt_Qlt. simpl List.length. lia.
Qed.

(** ** Least squares *)

Lemma fit_inv (X y : list Q) (m : LinearRegression) :
  fit X y = inr m ->
  X <> [] /\
  coef_ m = lstsq (map (fun x => x - Np.mean X) X) (map (fun v => v - Np.mean y) y) /\
  intercept_ m = Np.mean y - Np.mean X * coef_ m.
Proof.
  destruct X as [|x X]; simpl; intros H; [discriminate|].
  injection H as <-. simpl. repeat split. discriminate.
Qed.

Lemma fit_defined (X y : list Q) :
  X <> [] -> exists m, fit X y = inr m.
Proof.
  destruct X as [|x X]; [contradiction|]. intros _. simpl. eauto.
Qed.

Section LeastSquares.
Context {A : Type}.
Implicit Types (u v fx fy : A -> Q) (l : list A).

Lemma centred_sum_zero u l :
  l <> [] ->
  Np.sum (map (fun a => u a - Np.mean (map u l)) l) == 0.
Proof.
  intros Hne. pose proof (size_pos l Hne) as Hn.
  set (mu := Np.mean (map u l)).
  rewrite (sum_map_ext _ (fun a => 1 * u a + (- mu) * (fun _ => 1) a))
    by (intros; ring).
  rewrite sum_map_lin2, sum_map_const.
  unfold mu, Np.mean, Np.size. rewrite length_map.
  field. lra.
Qed.

(** The centred coefficient solves the centred normal equation, also
    when the feature has no spread. *)
Lemma lstsq_normal u v l :
  lstsq (map u l) (map v l) * Np.sum (map (fun a => u a * u a) l)
  == Np.sum (map (fun a => u a * v a) l).
Proof.
  unfold lstsq, Np.dot. rewrite !combine_map, !map_map. simpl.
  destruct (Qeq_bool (Np.sum (map (fun a => u a * u a) l)) 0) eqn:E.
  - apply Qeq_bool_eq in E.
    rewrite (sum_map_ext (fun a => u a * v a) (fun a => 0 * v a + 0 * v a)).
    + rewrite sum_map_lin2. rewrite E. ring.
    + intros a Ha. rewrite (sum_sq_zero u l E a Ha). ring.
  - apply Qeq_bool_neq in E. field. exact E.
Qed.

Lemma fit_normal_equations fx fy l m :
  fit (map fx l) (map fy l) = inr m ->
  Np.sum (map (fun a => residual m (fx a) (fy a)) l) == 0 /\
  Np.sum (map (fun a => fx a * residual m (fx a) (fy a)) l) == 0.
Proof.
  intros Hfit. apply fit_inv in Hfit as (Hne & Hc & Hi).
  assert (Hl : l <> []) by (intros ->; now apply Hne).
  set (xb := Np.mean (map fx l)) in *. set (yb := Np.mean (map fy l)) in *.
  rewrite !map_map in Hc.
  pose proof (lstsq_normal (fun a => fx a - xb) (fun a => fy a - yb) l) as Hn.
  rewrite <- Hc in Hn.
  pose proof (centred_sum_zero fx l Hl) as Hx. fold xb in Hx.
  pose proof (centred_sum_zero fy l Hl) as Hy. fold yb in Hy.
  set (c := coef_ m) in *.
  assert (Hr : forall a, residual m (fx a) (fy a)
                         == 1 * (fy a - yb) + (- c) * (fx a - xb)).
  { intros a. unfold residual. fold c. rewrite Hi. ring. }
  split.
  - rewrite (sum_map_ext _ _ l (fun a _ => Hr a)).
    rewrite sum_map_lin2, Hx, Hy. ring.
  - rewrite (sum_map_ext _
      (fun a => 1 * ((fx a - xb) * (fy a - yb))
                + (- c) * ((fx a - xb) * (fx a - xb))
                + xb * (residual m (fx a) (fy a)))).
    + rewrite sum_map_lin3.
      rewrite (sum_map_ext _ _ l (fun a _ => Hr a)).
      rewrite sum_map_lin2, Hx, Hy, <- Hn. ring.
    + intros a _. rewrite Hr. ring.
Qed.

(** The fitted line has the least sum of squared residuals. *)
Lemma fit_minimises fx fy l m (a' b' : Q) :
  fit (map fx l) (map fy l) = inr m ->
  Np.sum (map (fun a => residual m (fx a) (fy a) * residual m (fx a) (fy a)) l)
  <= Np.sum (map (fun a => (fy a - (fx a * a' + b')) * (fy a - (fx a * a' + b'))) l).
Proof.
  intros Hfit. destruct (fit_normal_equations fx fy l m Hfit) as [H0 H1].
  set (d := fun a => fx a * (coef_ m - a') + (intercept_ m - b')).
  rewrite (sum_map_ext (fun a => (fy a - (fx a * a' + b')) * (fy a - (fx a * a' + b')))
    (fun a => 1 * (residual m (fx a) (fy a) * residual m (fx a) (fy a))
              + 1 * (d a * d a)
              + 2 * ((coef_ m - a') * (fx a * residual m (fx a) (fy a))
                     + (intercept_ m - b') * residual m (fx a) (fy a)))).
  - rewrite sum_map_lin3, sum_map_lin2, H0, H1.
    pose proof (sum_sq_nonneg d l). lra.
  - intros a _. unfold d, residual. ring.
Qed.

End LeastSquares.

(** ** The regression step on a data set *)

Lemma sse_nonneg (target : MarketRecord -> Q) (a b : Q) (df : Dataset) :
  0 <= sse target a b df.
Proof.
  unfold sse. apply (sum_sq_nonneg (fun r => target r - (year_of r * a + b))).
Qed.

Lemma fit_sse_least (target : MarketRecord -> Q) (df : Dataset)
    (m : LinearRegression) (a b : Q) :
  fit (map year_of df) (map target df) = inr m ->
  sse target (coef_ m) (intercept_ m) df <= sse target a b df.
Proof.
  intros Hfit. apply (fit_minimises year_of target df m a b Hfit).
Qed.

Lemma ss_res_in_sample (target : MarketRecord -> Q) (df : Dataset)
    (m : LinearRegression) :
  ss_res (map target df) (predict m (map year_of df))
  = sse target (coef_ m) (intercept_ m) df.
Proof.
  unfold ss_res, sse, predict. now rewrite map_map, combine_map, map_map.
Qed.

Lemma two_distinct_years_length (df : Dataset) :
  two_distinct_years df -> (2 <= List.length df)%nat.
Proof.
  intros (r1 & r2 & H1 & H2 & Hne).
  destruct df as [|a [|b df]]; simpl in *; try lia; try contradiction.
  destruct H1 as [<-|[]], H2 as [<-|[]]. congruence.
Qed.

Lemma two_distinct_years_nonempty (df : Dataset) :
  two_distinct_years df -> df <> [].
Proof.
  intros H ->. apply two_distinct_years_length in H. simpl in H. lia.
Qed.

(** A target without spread is fitted without error. *)
Lemma flat_target_sse_zero (target : MarketRecord -> Q) (df : Dataset)
    (m : LinearRegression) :
  fit (map year_of df) (map target df) = inr m ->
  ss_tot (map target df) == 0 ->
  sse target (coef_ m) (intercept_ m) df == 0.
Proof.
  intros Hfit Htot. unfold ss_tot in Htot. rewrite map_map in Htot.
  set (mu := Np.mean (map target df)) in *.
  pose proof (sum_sq_zero (fun r => target r - mu) df Htot) as Hflat.
  pose proof (fit_sse_least target df m 0 mu Hfit) as Hle.
  pose proof (sse_nonneg target (coef_ m) (intercept_ m) df) as Hge.
  assert (H0 : sse target 0 mu df == 0).
  { unfold sse.
    rewrite (sum_map_ext _ (fun r => 0 * target r + 0 * target r)).
    - rewrite sum_map_lin2. ring.
    - intros r Hr. specialize (Hflat r Hr). simpl in Hflat.
      setoid_replace (target r - (year_of r * 0 + mu)) with (target r - mu) by ring.
      rewrite Hflat. ring. }
  lra.
Qed.

Lemma line_target_sse_zero (target : MarketRecord -> Q) (df : Dataset)
    (m : LinearRegression) :
  fit (map year_of df) (map target df) = inr m ->
  on_a_line target df ->
  sse target (coef_ m) (intercept_ m) df == 0.
Proof.
  intros Hfit (a & b & Hline).
  pose proof (fit_sse_least target df m a b Hfit) as Hle.
  pose proof (sse_nonneg target (coef_ m) (intercept_ m) df) as Hge.
  assert (H0 : sse target a b df == 0).
  { unfold sse.
    rewrite (sum_map_ext _ (fun r => 0 * target r + 0 * target r)).
    - rewrite sum_map_lin2. ring.
    - intros r Hr. rewrite (Hline r Hr). ring. }
  lra.
Qed.

Lemma r2_in_sample (target : MarketRecord -> Q) (df : Dataset)
    (m : LinearRegression) :
  fit (map year_of df) (map target df) = inr m ->
  (2 <= List.length df)%nat ->
  exists r,
    r2_score (map target df) (predict m (map year_of df)) = fin r /\
    r == 1 - sse target (coef_ m) (intercept_ m) df / ss_tot (map target df) /\
    (ss_tot (map target df) == 0 -> r == 1) /\
    (on_a_line target df -> r == 1).
Proof.
  intros Hfit Hlen. unfold r2_score.
  assert (Hl : (List.length (predict m (map year_of df)) <? 2)%nat = false).
  { apply Nat.ltb_ge. unfold predict. now rewrite !length_map. }
  rewrite Hl, ss_res_in_sample.
  set (num := sse target (coef_ m) (intercept_ m) df).
  set (den := ss_tot (map target df)).
  assert (Hnum0 : num == 0 -> 1 == 1 - num / den).
  { intros E. unfold Qdiv. rewrite E. ring. }
  destruct (Qeq_bool num 0) eqn:En.
  - apply Qeq_bool_eq in En. exists 1.
    split; [reflexivity|]. split; [now apply Hnum0|].
    split; intros _; reflexivity.
  - apply Qeq_bool_neq in En.
    destruct (Qeq_bool den 0) eqn:Ed.
    + apply Qeq_bool_eq in Ed. exfalso. apply En.
      now apply flat_target_sse_zero.
    + apply Qeq_bool_neq in Ed. exists (1 - num / den).
      split; [reflexivity|]. split; [reflexivity|]. split.
      * intros E. contradiction.
      * intros Hline. exfalso. apply En. now apply line_target_sse_zero.
Qed.

Lemma perform_regression_run (df : Dataset)
    (model_market model_adoption : LinearRegression) (w : World) :
  fit (map year_of df) (map MarketSize df) = inr model_market ->
  fit (map year_of df) (map AdoptionRate df) = inr model_adoption ->
  perform_regression df w =
    (inr (model_market, model_adoption,
          r2_score (map MarketSize df) (predict model_market (map year_of df)),
          r2_score (map AdoptionRate df) (predict model_adoption (map year_of df))),
     {| files := files w;
        stdout := (stdout w
          ++ [[Str "Market Size Model R² Score: ";
               Fixed4 (r2_score (map MarketSize df)
                         (predict model_market (map year_of df)))]])
          ++ [[Str "Adoption Rate Model R² Score: ";
               Fixed4 (r2_score (map AdoptionRate df)
                         (predict model_adoption (map year_of df)))]] |}).
Proof.
  intros Hm Ha.
  unfold perform_regression, bind, lift, print, ret.
  change (map (fun r => inject_Z (Year r)) df) with (map year_of df).
  rewrite Hm, Ha. reflexivity.
Qed.

Lemma fits_defined (df : Dataset) :
  df <> [] ->
  exists model_market model_adoption,
    fit (map year_of df) (map MarketSize df) = inr model_market /\
    fit (map year_of df) (map AdoptionRate df) = inr model_adoption.
Proof.
  intros Hne.
  assert (HX : map year_of df <> []) by (destruct df; [contradiction | discriminate]).
  destruct (fit_defined _ (map MarketSize df) HX) as [mm Hm].
  destruct (fit_defined _ (map AdoptionRate df) HX) as [ma Ha].
  eauto.
Qed.

(** An empty table cannot be fitted. *)
Lemma perform_regression_empty (w : World) :
  perform_regression [] w = (inl ValueError, w).
Proof. reflexivity. Qed.

(** ** The forecaster *)

Lemma range_from_one (n : Z) :
  Np.range 1 (n + 1) = map (fun k => (1 + Z.of_nat k)%Z) (seq 0 (Z.to_nat n)).
Proof. unfold Np.range. now replace (n + 1 - 1)%Z with n by lia. Qed.

Lemma frame_of_years (model_market model_adoption : LinearRegression) (ys : list Z) :
  Forecast.DataFrame ys (predict model_market (map inject_Z ys))
                        (predict model_adoption (map inject_Z ys))
  = map (forecast_row model_market model_adoption) ys.
Proof.
  unfold Forecast.DataFrame, predict.
  induction ys as [|y ys IH]; [reflexivity|].
  simpl. f_equal. exact IH.
Qed.

Lemma generate_future_predictions_rows
    (model_market model_adoption : LinearRegression) (base_year years_ahead : Z) :
  (1 <= years_ahead)%Z ->
  generate_future_predictions model_market model_adoption base_year years_ahead
  = inr (map (fun k => forecast_row model_market model_adoption
                         (base_year + (1 + Z.of_nat k))%Z)
             (seq 0 (Z.to_nat years_ahead))).
Proof.
  intros Hn. unfold generate_future_predictions.
  rewrite range_from_one, map_map.
  set (ys := map (fun k => (base_year + (1 + Z.of_nat k))%Z) (seq 0 (Z.to_nat years_ahead))).
  assert (Hys : ys <> []).
  { unfold ys. destruct (Z.to_nat years_ahead) eqn:E; [lia | discriminate]. }
  destruct ys as [|y ys'] eqn:Eys; [contradiction|].
  rewrite frame_of_years, <- Eys. unfold ys. now rewrite map_map.
Qed.

Lemma generate_future_predictions_none
    (model_market model_adoption : LinearRegression) (base_year years_ahead : Z) :
  (years_ahead <= 0)%Z ->
  generate_future_predictions model_market model_adoption base_year years_ahead
  = inl ValueError.
Proof.
  intros Hn. unfold generate_future_predictions. rewrite range_from_one.
  now replace (Z.to_nat years_ahead) with O by lia.
Qed.

(** C2.  For fitted models, an anchor year A and a horizon N >= 1, the
    forecaster returns exactly N rows; row i (counting from 0) is for year
    A + 1 + i, so the years are A+1, ..., A+N in that order, and its two
    predicted values are slope * year + intercept of the market model and
    of the adoption model. *)
Theorem forecaster_contract
    (model_market model_adoption : LinearRegression) (A N : Z) :
  (1 <= N)%Z ->
  exists rows,
    generate_future_predictions model_market model_adoption A N = inr rows /\
    List.length rows = Z.to_nat N /\
    map Forecast.Year rows = map (fun k => (A + 1 + Z.of_nat k)%Z) (seq 0 (Z.to_nat N)) /\
    StronglySorted Z.lt (map Forecast.Year rows) /\
    (forall i, (i < Z.to_nat N)%nat ->
       exists row,
         nth_error rows i = Some row /\
         Forecast.Year row = (A + 1 + Z.of_nat i)%Z /\
         Forecast.PredictedMarketSize row
         == coef_ model_market * inject_Z (Forecast.Year row) + intercept_ model_market /\
         Forecast.PredictedAdoptionRate row
         == coef_ model_adoption * inject_Z (Forecast.Year row)
            + intercept_ model_adoption).
Proof.
  intros HN. eexists. split; [now apply generate_future_predictions_rows|].
  assert (Hyears : map Forecast.Year
            (map (fun k => forecast_row model_market model_adoption
                             (A + (1 + Z.of_nat k))%Z) (seq 0 (Z.to_nat N)))
          = map (fun k => (A + 1 + Z.of_nat k)%Z) (seq 0 (Z.to_nat N))).
  { rewrite map_map. apply map_ext. intros k.
    unfold forecast_row. cbn [Forecast.Year]. lia. }
  split; [now rewrite length_map, length_seq|].
  split; [exact Hyears|]. split.
  - rewrite Hyears. clear Hyears HN. generalize 0%nat as s.
    induction (Z.to_nat N) as [|n IH]; intros s.
    + constructor.
    + cbn [seq map]. constructor; [apply IH|].
      apply Forall_forall. intros y Hy. apply in_map_iff in Hy as (k & <- & Hk).
      apply in_seq in Hk. lia.
  - intros i Hi. eexists. split.
    + rewrite nth_error_map, nth_error_seq.
      * apply Nat.ltb_lt in Hi. rewrite Hi. reflexivity.
    + unfold forecast_row. cbn [Forecast.Year Forecast.PredictedMarketSize
                                  Forecast.PredictedAdoptionRate Nat.add].
      split; [lia|]. split; ring.
Qed.

Lemma forecaster_contract_witness :
  exists rows,
    generate_future_predictions {| coef_ := 50; intercept_ := -100900 |}
                                {| coef_ := 5; intercept_ := -10090 |} 2024 5
    = inr rows /\
    List.length rows = 5%nat /\
    map Forecast.Year rows = [2025; 2026; 2027; 2028; 2029]%Z.
Proof.
  destruct (forecaster_contract {| coef_ := 50; intercept_ := -100900 |}
              {| coef_ := 5; intercept_ := -10090 |} 2024 5 ltac:(lia))
    as (rows & H1 & H2 & H3 & _).
  exists rows. repeat split; assumption.
Defined.

(** ** The result writer *)

Lemma zip_rows_predicted (df_predictions : list Forecast.row) :
  Combined.zip_rows
    (map Forecast.Year df_predictions)
    (repeat None (List.length df_predictions))
    (repeat None (List.length df_predictions))
    (map (fun r => Some (Forecast.PredictedMarketSize r)) df_predictions)
    (map (fun r => Some (Forecast.PredictedAdoptionRate r)) df_predictions)
    (repeat "Predicted" (List.length df_predictions))
  = map predicted_row df_predictions.
Proof.
  unfold Combined.zip_rows.
  induction df_predictions as [|p ps IH]; [reflexivity|].
  simpl. f_equal. exact IH.
Qed.

Lemma zip_rows_merge (df_original : Dataset) (df_predictions : list Forecast.row) :
  Combined.zip_rows
    (map Year df_original ++ map Forecast.Year df_predictions)
    (map (fun r => Some (MarketSize r)) df_original
       ++ repeat None (List.length df_predictions))
    (map (fun r => Some (AdoptionRate r)) df_original
       ++ repeat None (List.length df_predictions))
    (repeat None (List.length df_original)
       ++ map (fun r => Some (Forecast.PredictedMarketSize r)) df_predictions)
    (repeat None (List.length df_original)
       ++ map (fun r => Some (Forecast.PredictedAdoptionRate r)) df_predictions)
    (repeat "Historical" (List.length df_original)
       ++ repeat "Predicted" (List.length df_predictions))
  = (map historical_row df_original ++ map predicted_row df_predictions)%list.
Proof.
  induction df_original as [|r rs IH].
  - apply zip_rows_predicted.
  - unfold Combined.zip_rows in *. simpl. f_equal. exact IH.
Qed.

Lemma combined_frame (df_original : Dataset) (df_predictions : list Forecast.row) :
  Combined.DataFrame
    (map Year df_original ++ map Forecast.Year df_predictions)
    (map (fun r => Some (MarketSize r)) df_original
       ++ repeat None (List.length df_predictions))
    (map (fun r => Some (AdoptionRate r)) df_original
       ++ repeat None (List.length df_predictions))
    (repeat None (List.length df_original)
       ++ map (fun r => Some (Forecast.PredictedMarketSize r)) df_predictions)
    (repeat None (List.length df_original)
       ++ map (fun r => Some (Forecast.PredictedAdoptionRate r)) df_predictions)
    (repeat "Historical" (List.length df_original)
       ++ repeat "Predicted" (List.length df_predictions))
  = inr (map historical_row df_original ++ map predicted_row df_predictions)%list.
Proof.
  unfold Combined.DataFrame.
  rewrite !length_app, !length_map, !repeat_length, !Nat.eqb_refl.
  cbn [andb]. now rewrite zip_rows_merge.
Qed.

Lemma save_results_run (df_original : Dataset) (df_predictions : list Forecast.row)
    (market_r2 adoption_r2 : pyfloat) (w : World) :
  save_results df_original df_predictions market_r2 adoption_r2 w
  = (inr (report df_original df_predictions market_r2 adoption_r2),
     {| files := files
          (write_file json_path
             (ResultsJson (report df_original df_predictions market_r2 adoption_r2))
             (write_file csv_path
                (ResultsCsv (to_csv (map historical_row df_original
                                       ++ map predicted_row df_predictions)%list)) w));
        stdout := ((stdout w ++ [[Str "Results saved to "; Str csv_path]])
                    ++ [[Str "JSON results saved to "; Str json_path]])%list |}).
Proof.
  unfold save_results, bind, lift. rewrite combined_frame. reflexivity.
Qed.

(** ** Running computations *)

Lemma bind_print {A : Type} (l : line) (k : unit -> M A) (w : World) :
  bind (print l) k w = k tt {| files := files w; stdout := stdout w ++ [l] |}.
Proof. reflexivity. Qed.

Lemma bind_run {A B : Type} (m : M A) (k : A -> M B) (w w' : World) (a : A) :
  m w = (inr a, w') -> bind m k w = k a w'.
Proof. intros H. unfold bind. now rewrite H. Qed.

Ltac step_print := rewrite bind_print; cbv beta; cbn [files stdout].

(** ** The whole script *)

Lemma load_data_missing (w : World) :
  files w data_path = None ->
  read_csv data_path w = (inl FileNotFoundError, w) /\
  load_data w =
    (inr None,
     {| files := files w;
        stdout := stdout w
                  ++ [[Str "Error: ai_market.csv not found in data/ directory"]] |}).
Proof.
  intros Hfile. split.
  - unfold read_csv. now rewrite Hfile.
  - unfold load_data, try_except, bind, read_csv.
    change (path_join "data" "ai_market.csv") with data_path.
    rewrite Hfile. reflexivity.
Qed.

Lemma load_data_present (w : World) (df : Dataset) :
  files w data_path = Some (MarketCsv df) ->
  load_data w =
    (inr (Some df),
     {| files := files w;
        stdout := stdout w
                  ++ [[Str "Loaded "; Len (List.length df); Str " records from ";
                       Str data_path]] |}).
Proof.
  intros Hfile. unfold load_data, try_except, bind, read_csv.
  change (path_join "data" "ai_market.csv") with data_path.
  rewrite Hfile. reflexivity.
Qed.

Lemma main_run (w : World) (df : Dataset) :
  files w data_path = Some (MarketCsv df) ->
  df <> [] ->
  exists model_market model_adoption w',
    fit (map year_of df) (map MarketSize df) = inr model_market /\
    fit (map year_of df) (map AdoptionRate df) = inr model_adoption /\
    main w = (inr tt, w') /\
    files w' =
      files (write_file json_path
               (ResultsJson
                  (report df
                     (map (forecast_row model_market model_adoption)
                          [2025; 2026; 2027; 2028; 2029]%Z)
                     (r2_score (map MarketSize df)
                        (predict model_market (map year_of df)))
                     (r2_score (map AdoptionRate df)
                        (predict model_adoption (map year_of df)))))
               (write_file csv_path
                  (ResultsCsv
                     (to_csv (map historical_row df
                                ++ map predicted_row
                                     (map (forecast_row model_market model_adoption)
                                          [2025; 2026; 2027; 2028; 2029]%Z))%list))
                  w)).
Proof.
  intros Hfile Hne.
  destruct (fits_defined df Hne) as (mm & ma & Hm & Ha).
  exists mm, ma. eexists. split; [exact Hm|]. split; [exact Ha|].
  unfold main. step_print.
  erewrite bind_run by (apply load_data_present; exact Hfile).
  cbv beta iota. cbn [files stdout].
  repeat step_print.
  rewrite (bind_run _ _ _ _ _ (perform_regression_run df mm ma _ Hm Ha)).
  cbv beta iota. cbn [files stdout]. step_print.
  unfold base_year_default, years_ahead_default.
  rewrite generate_future_predictions_rows by lia.
  unfold bind at 1. unfold lift at 1.
  repeat step_print.
  rewrite (bind_run _ _ _ _ _ (save_results_run _ _ _ _ _)).
  cbn [files stdout]. repeat step_print.
  unfold ret. split; reflexivity.
Qed.

(** ** The claims about the regression step *)

(** C3.  For a data set with at least two distinct years the regression
    step returns two fitted lines, and each satisfies the normal equations
    of ordinary least squares on its target: the residuals sum to zero and
    the year-weighted residuals sum to zero.  Each line also has the least
    sum of squared residuals among all lines. *)
Theorem regression_normal_equations (df : Dataset) (w : World) :
  two_distinct_years df ->
  exists model_market model_adoption market_r2 adoption_r2 w',
    perform_regression df w
    = (inr (model_market, model_adoption, market_r2, adoption_r2), w') /\
    Np.sum (map (fun r => residual model_market (year_of r) (MarketSize r)) df) == 0 /\
    Np.sum (map (fun r => year_of r * residual model_market (year_of r) (MarketSize r)) df)
    == 0 /\
    Np.sum (map (fun r => residual model_adoption (year_of r) (AdoptionRate r)) df) == 0 /\
    Np.sum (map (fun r => year_of r * residual model_adoption (year_of r) (AdoptionRate r))
               df) == 0 /\
    (forall a b, sse MarketSize (coef_ model_market) (intercept_ model_market) df
                 <= sse MarketSize a b df) /\
    (forall a b, sse AdoptionRate (coef_ model_adoption) (intercept_ model_adoption) df
                 <= sse AdoptionRate a b df).
Proof.
  intros Hyears. pose proof (two_distinct_years_nonempty df Hyears) as Hne.
  destruct (fits_defined df Hne) as (mm & ma & Hm & Ha).
  exists mm, ma. do 3 eexists.
  split; [apply (perform_regression_run df mm ma w Hm Ha)|].
  destruct (fit_normal_equations year_of MarketSize df mm Hm) as [Hm0 Hm1].
  destruct (fit_normal_equations year_of AdoptionRate df ma Ha) as [Ha0 Ha1].
  repeat (split; [assumption|]). split.
  - intros a b. now apply fit_sse_least.
  - intros a b. now apply fit_sse_least.
Qed.

Lemma scenario_two_distinct_years : two_distinct_years scenario.
Proof.
  exists {| Year := 2020; MarketSize := 100; AdoptionRate := 10 |},
         {| Year := 2021; MarketSize := 150; AdoptionRate := 15 |}.
  simpl. repeat split; auto. discriminate.
Defined.

Lemma regression_normal_equations_witness :
  two_distinct_years scenario /\
  exists model_market model_adoption market_r2 adoption_r2 w',
    perform_regression scenario empty_world
    = (inr (model_market, model_adoption, market_r2, adoption_r2), w') /\
    Np.sum (map (fun r => residual model_market (year_of r) (MarketSize r)) scenario)
    == 0.
Proof.
  split; [exact scenario_two_distinct_years|].
  destruct (regression_normal_equations scenario empty_world scenario_two_distinct_years)
    as (mm & ma & r2m & r2a & w' & Hrun & H0 & _).
  exists mm, ma, r2m, r2a, w'. split; assumption.
Defined.

(** C4.  For a data set with at least two distinct years the R² that the
    regression step returns for each target is the number
    1 - SSres / SStot, where SSres is the sum of squared residuals of the
    fitted line on the data and SStot the sum of squared deviations of the
    target from its mean.  (When SStot is zero the fitted line has no
    residual either and the score is 1, which is also what the formula
    gives in Q, where a quotient by zero is zero.)  When the target lies
    exactly on a line in the year, the score is 1. *)
Theorem r2_is_coefficient_of_determination (df : Dataset) (w : World) :
  two_distinct_years df ->
  exists model_market model_adoption market_r2 adoption_r2 w',
    perform_regression df w
    = (inr (model_market, model_adoption, fin market_r2, fin adoption_r2), w') /\
    market_r2 == 1 - sse MarketSize (coef_ model_market) (intercept_ model_market) df
                     / ss_tot (map MarketSize df) /\
    adoption_r2 == 1 - sse AdoptionRate (coef_ model_adoption) (intercept_ model_adoption) df
                       / ss_tot (map AdoptionRate df) /\
    (ss_tot (map MarketSize df) == 0 -> market_r2 == 1) /\
    (ss_tot (map AdoptionRate df) == 0 -> adoption_r2 == 1) /\
    (on_a_line MarketSize df -> market_r2 == 1) /\
    (on_a_line AdoptionRate df -> adoption_r2 == 1).
Proof.
  intros Hyears. pose proof (two_distinct_years_nonempty df Hyears) as Hne.
  pose proof (two_distinct_years_length df Hyears) as Hlen.
  destruct (fits_defined df Hne) as (mm & ma & Hm & Ha).
  destruct (r2_in_sample MarketSize df mm Hm Hlen) as (rm & Erm & Hrm & Hzm & Hlm).
  destruct (r2_in_sample AdoptionRate df ma Ha Hlen) as (ra & Era & Hra & Hza & Hla).
  exists mm, ma, rm, ra. eexists.
  split.
  - rewrite (perform_regression_run df mm ma w Hm Ha), Erm, Era. reflexivity.
  - repeat split; assumption.
Qed.

Lemma scenario_on_a_line : on_a_line MarketSize scenario.
Proof.
  exists 50, (-100900). intros r Hr. simpl in Hr.
  destruct Hr as [<- | [<- | [<- | []]]]; reflexivity.
Defined.

Lemma r2_is_coefficient_of_determination_witness :
  two_distinct_years scenario /\ on_a_line MarketSize scenario /\
  exists model_market model_adoption market_r2 adoption_r2 w',
    perform_regression scenario empty_world
    = (inr (model_market, model_adoption, fin market_r2, fin adoption_r2), w') /\
    market_r2 == 1.
Proof.
  split; [exact scenario_two_distinct_years|]. split; [exact scenario_on_a_line|].
  destruct (r2_is_coefficient_of_determination scenario empty_world
              scenario_two_distinct_years)
    as (mm & ma & rm & ra & w' & Hrun & _ & _ & _ & _ & Hline & _).
  exists mm, ma, rm, ra, w'. split; [exact Hrun | exact (Hline scenario_on_a_line)].
Defined.

(** The fitted lines of the three-row scenario, computed. *)
Lemma scenario_fits :
  exists model_market model_adoption,
    fit (map year_of scenario) (map MarketSize scenario) = inr model_market /\
    fit (map year_of scenario) (map AdoptionRate scenario) = inr model_adoption /\
    coef_ model_market == 50 /\
    intercept_ model_market == -100900 /\
    coef_ model_adoption == 5 /\
    intercept_ model_adoption == -10090.
Proof.
  do 2 eexists. split; [reflexivity|]. split; [reflexivity|].
  repeat split; vm_compute; reflexivity.
Qed.

Lemma exact_within_tolerance (x expected : Q) :
  x == expected -> within_tolerance x expected.
Proof.
  intros E. unfold within_tolerance.
  setoid_replace (x - expected) with 0 by (rewrite E; ring).
  change (Qabs 0) with 0.
  pose proof (Qabs_nonneg expected). nra.
Qed.

(** C8, as the code has it.  On the data set
    [(2020,100,10); (2021,150,15); (2022,200,20)] the fitted market line has
    slope 50 and intercept approximately -100900, and the fitted line
    evaluated at the year 2023 (the forecaster anchored at 2022 with horizon
    1) gives the predicted market size 250, each within numeric tolerance. *)
Theorem scenario_fit (w : World) :
  exists model_market model_adoption market_r2 adoption_r2 w',
    perform_regression scenario w
    = (inr (model_market, model_adoption, market_r2, adoption_r2), w') /\
    within_tolerance (coef_ model_market) 50 /\
    within_tolerance (intercept_ model_market) (-100900) /\
    exists row,
      generate_future_predictions model_market model_adoption 2022 1 = inr [row] /\
      Forecast.Year row = 2023%Z /\
      within_tolerance (Forecast.PredictedMarketSize row) 250.
Proof.
  destruct scenario_fits as (mm & ma & Hm & Ha & Hc & Hi & _ & _).
  exists mm, ma. do 3 eexists.
  split; [apply (perform_regression_run scenario mm ma w Hm Ha)|].
  split; [now apply exact_within_tolerance|].
  split; [now apply exact_within_tolerance|].
  eexists. split.
  - rewrite generate_future_predictions_rows by lia. reflexivity.
  - split; [reflexivity|]. apply exact_within_tolerance.
    unfold forecast_row. cbn [Forecast.PredictedMarketSize].
    rewrite Hc, Hi. reflexivity.
Qed.

(** C8 as stated fails: the fitted intercept is 50 away from -100850, far
    outside any numeric tolerance (1e-6 relative is about 0.1 here). *)
Lemma scenario_intercept_is_not_100850 :
  exists model_market model_adoption market_r2 adoption_r2 w',
    perform_regression scenario empty_world
    = (inr (model_market, model_adoption, market_r2, adoption_r2), w') /\
    Qabs (intercept_ model_market - (-100850)) == 50 /\
    ~ Qabs (intercept_ model_market - (-100850)) <= (1 # 1000000) * 100850 /\
    ~ within_tolerance (intercept_ model_market) (-100850).
Proof.
  destruct scenario_fits as (mm & ma & Hm & Ha & _ & Hi & _ & _).
  exists mm, ma. do 3 eexists.
  split; [apply (perform_regression_run scenario mm ma empty_world Hm Ha)|].
  assert (E : Qabs (intercept_ mm - (-100850)) == 50).
  { rewrite Hi. reflexivity. }
  split; [exact E|]. unfold within_tolerance. rewrite E.
  split; intros H; vm_compute in H; now apply H.
Qed.

(** ** The forecaster and the estimator objects *)

Lemma method_predict_reads_only (self : Obj.ref) (X : list Q) (s : Obj.Store) :
  snd (Obj.method_predict self X s) = s.
Proof.
  unfold Obj.method_predict.
  destruct (nth_error (Obj.objects s) self) as [[m|]|]; try reflexivity.
  destruct X; reflexivity.
Qed.

Lemma method_predict_same_object (self : Obj.ref) (X : list Q) (s1 s2 : Obj.Store) :
  nth_error (Obj.objects s1) self = nth_error (Obj.objects s2) self ->
  fst (Obj.method_predict self X s1) = fst (Obj.method_predict self X s2).
Proof.
  intros H. unfold Obj.method_predict. rewrite H.
  destruct (nth_error (Obj.objects s2) self) as [[m|]|]; try reflexivity.
  destruct X; reflexivity.
Qed.

(** What a call of the forecaster returns, read off the two objects. *)
Lemma forecaster_run (model_market model_adoption : Obj.ref)
    (base_year years_ahead : Z) (s : Obj.Store) :
  Obj.generate_future_predictions model_market model_adoption base_year years_ahead s
  = (match nth_error (Obj.objects s) model_market,
           nth_error (Obj.objects s) model_adoption with
     | Some (Some mm), Some (Some ma) =>
         generate_future_predictions mm ma base_year years_ahead
     | _, _ => inl ValueError
     end, s).
Proof.
  unfold Obj.generate_future_predictions, generate_future_predictions, Obj.bind,
    Obj.method_predict, Obj.ret.
  set (ys := map (fun i => (base_year + i)%Z) (Np.range 1 (years_ahead + 1))).
  destruct (nth_error (Obj.objects s) model_market) as [[mm|]|] eqn:Em.
  - destruct ys as [|y ys'].
    + cbn [map]. destruct (nth_error (Obj.objects s) model_adoption) as [[ma|]|];
        reflexivity.
    + cbn [map]. destruct (nth_error (Obj.objects s) model_adoption) as [[ma|]|];
        reflexivity.
  - reflexivity.
  - reflexivity.
Qed.

(** Fitting, unlike forecasting, changes the object it is called on. *)
Lemma method_fit_writes (self : Obj.ref) (X y : list Q) (m : LinearRegression)
    (s : Obj.Store) :
  nth_error (Obj.objects s) self = Some None ->
  fit X y = inr m ->
  exists s',
    Obj.method_fit self X y s = (inr tt, s') /\
    nth_error (Obj.objects s') self = Some (Some m) /\
    s' <> s.
Proof.
  intros Hobj Hfit. unfold Obj.method_fit. rewrite Hobj, Hfit.
  eexists. split; [reflexivity|]. cbn [Obj.objects].
  assert (Hlt : (self < List.length (Obj.objects s))%nat).
  { apply nth_error_Some. rewrite Hobj. discriminate. }
  assert (Hnew : nth_error (Obj.store_fitted self m (Obj.objects s)) self
                 = Some (Some m)).
  { unfold Obj.store_fitted. rewrite nth_error_app2; rewrite length_firstn.
    - replace (self - Nat.min self (List.length (Obj.objects s)))%nat with O by lia.
      reflexivity.
    - lia. }
  split; [exact Hnew|].
  intros E. apply (f_equal Obj.objects) in E. cbn [Obj.objects] in E.
  rewrite E in Hnew. rewrite Hobj in Hnew. discriminate.
Qed.

Lemma forecast_twice_run (model_market model_adoption : Obj.ref)
    (base_year years_ahead : Z) (s : Obj.Store) :
  Obj.forecast_twice model_market model_adoption base_year years_ahead s
  = (match fst (Obj.generate_future_predictions model_market model_adoption
                  base_year years_ahead s) with
     | inr rows => inr (rows, rows)
     | inl e => inl e
     end, s).
Proof.
  unfold Obj.forecast_twice, Obj.bind, Obj.ret.
  pose proof (forecaster_run model_market model_adoption base_year years_ahead s) as H.
  destruct (Obj.generate_future_predictions model_market model_adoption
              base_year years_ahead s) as [r s'] eqn:E.
  injection H as Hr Hs. subst s'. cbn [fst].
  destruct r as [e | rows]; [reflexivity|].
  rewrite E. reflexivity.
Qed.

(** C9.  The forecaster only reads.  Called on two estimator objects in any
    state of the program, it leaves that state as it found it: the objects,
    the files and the standard output.  Its result depends on nothing
    but its arguments: two states in which the two objects hold the same
    fitted attributes give the same result for the same base year and
    horizon, whatever else differs between them.  Calling it twice in a row
    gives the same rows both times. *)
Theorem forecaster_reads_only (model_market model_adoption : Obj.ref)
    (base_year years_ahead : Z) (s1 s2 : Obj.Store) :
  nth_error (Obj.objects s1) model_market = nth_error (Obj.objects s2) model_market ->
  nth_error (Obj.objects s1) model_adoption
  = nth_error (Obj.objects s2) model_adoption ->
  fst (Obj.generate_future_predictions model_market model_adoption
         base_year years_ahead s1)
  = fst (Obj.generate_future_predictions model_market model_adoption
           base_year years_ahead s2) /\
  snd (Obj.generate_future_predictions model_market model_adoption
         base_year years_ahead s1) = s1 /\
  snd (Obj.generate_future_predictions model_market model_adoption
         base_year years_ahead s2) = s2 /\
  Obj.forecast_twice model_market model_adoption base_year years_ahead s1
  = (match fst (Obj.generate_future_predictions model_market model_adoption
                  base_year years_ahead s1) with
     | inr rows => inr (rows, rows)
     | inl e => inl e
     end, s1).
Proof.
  intros Hm Ha.
  split; [|split; [|split]].
  - rewrite !forecaster_run, Hm, Ha. reflexivity.
  - now rewrite forecaster_run.
  - now rewrite forecaster_run.
  - apply forecast_twice_run.
Qed.

Lemma forecaster_reads_only_witness :
  nth_error (Obj.objects {| Obj.objects := [Some {| coef_ := 50; intercept_ := -100900 |};
                                            Some {| coef_ := 5; intercept_ := -10090 |}];
                            Obj.world := empty_world |}) 0%nat
  = nth_error (Obj.objects {| Obj.objects := [Some {| coef_ := 50; intercept_ := -100900 |};
                                              Some {| coef_ := 5; intercept_ := -10090 |};
                                              None];
                              Obj.world := world_with scenario |}) 0%nat /\
  fst (Obj.generate_future_predictions 0%nat 1%nat 2024 5
         {| Obj.objects := [Some {| coef_ := 50; intercept_ := -100900 |};
                            Some {| coef_ := 5; intercept_ := -10090 |}];
            Obj.world := empty_world |})
  = fst (Obj.generate_future_predictions 0%nat 1%nat 2024 5
           {| Obj.objects := [Some {| coef_ := 50; intercept_ := -100900 |};
                              Some {| coef_ := 5; intercept_ := -10090 |};
                              None];
              Obj.world := world_with scenario |}).
Proof.
  split; [reflexivity|].
  apply (forecaster_reads_only 0%nat 1%nat 2024 5
           {| Obj.objects := [Some {| coef_ := 50; intercept_ := -100900 |};
                              Some {| coef_ := 5; intercept_ := -10090 |}];
              Obj.world := empty_world |}
           {| Obj.objects := [Some {| coef_ := 50; intercept_ := -100900 |};
                              Some {| coef_ := 5; intercept_ := -10090 |};
                              None];
              Obj.world := world_with scenario |}
           eq_refl eq_refl).
Defined.

Lemma nth_error_after (A : Type) (l r : list A) (x : A) :
  nth_error (l ++ x :: r) (List.length l) = Some x.
Proof.
  rewrite nth_error_app2 by lia. now rewrite Nat.sub_diag.
Qed.

Lemma store_fitted_after (l r : list (option LinearRegression))
    (x : option LinearRegression) (m : LinearRegression) :
  Obj.store_fitted (List.length l) m (l ++ x :: r) = (l ++ Some m :: r)%list.
Proof.
  unfold Obj.store_fitted.
  rewrite firstn_app, Nat.sub_diag, firstn_all, firstn_O, app_nil_r.
  rewrite skipn_app, skipn_all2 by lia.
  replace (S (List.length l) - List.length l)%nat with 1%nat by lia.
  reflexivity.
Qed.

(** The regression step over objects makes two new objects, fits them in
    place and returns references to them; the fitted attributes, the scores
    and the printed lines are those of [perform_regression]. *)
Lemma obj_perform_regression_run (df : Dataset)
    (model_market model_adoption : LinearRegression) (s : Obj.Store) :
  fit (map year_of df) (map MarketSize df) = inr model_market ->
  fit (map year_of df) (map AdoptionRate df) = inr model_adoption ->
  exists market_r2 adoption_r2 w',
    perform_regression df (Obj.world s)
    = (inr (model_market, model_adoption, market_r2, adoption_r2), w') /\
    Obj.perform_regression df s
    = (inr (List.length (Obj.objects s), S (List.length (Obj.objects s)),
            market_r2, adoption_r2),
       {| Obj.objects := (Obj.objects s ++ [Some model_market; Some model_adoption])%list;
          Obj.world := w' |}).
Proof.
  intros Hm Ha. do 3 eexists.
  split; [apply (perform_regression_run df _ _ _ Hm Ha)|].
  assert (HX : map year_of df <> []) by (now apply fit_inv in Hm).
  unfold Obj.perform_regression, Obj.bind, Obj.LinearRegression_new, Obj.method_fit,
    Obj.method_predict, Obj.in_world, Obj.ret, print.
  change (map (fun r => inject_Z (Year r)) df) with (map year_of df).
  cbn [Obj.objects Obj.world]. set (l := Obj.objects s).
  rewrite <- !app_assoc. cbn [app].
  rewrite (nth_error_after _ l [None] None), Hm. cbn [Obj.objects Obj.world].
  rewrite (store_fitted_after l [None] None model_market).
  replace (List.length (l ++ [None])) with (List.length (l ++ [Some model_market]))
    by (rewrite !length_app; reflexivity).
  replace (l ++ [Some model_market; None])%list
    with ((l ++ [Some model_market]) ++ [None])%list by (now rewrite <- app_assoc).
  rewrite (nth_error_after _ (l ++ [Some model_market]) [] None), Ha.
  cbn [Obj.objects Obj.world].
  rewrite (store_fitted_after (l ++ [Some model_market]) [] None model_adoption).
  rewrite <- app_assoc. cbn [app].
  rewrite (nth_error_after _ l [Some model_adoption] (Some model_market)).
  destruct (map year_of df) as [|x X] eqn:EX; [contradiction|].
  cbn [Obj.objects Obj.world].
  replace (l ++ [Some model_market; Some model_adoption])%list
    with ((l ++ [Some model_market]) ++ [Some model_adoption])%list
    by (now rewrite <- app_assoc).
  rewrite (nth_error_after _ (l ++ [Some model_market]) [] (Some model_adoption)).
  rewrite length_app, Nat.add_1_r.
  cbn [Obj.objects Obj.world files stdout].
  repeat rewrite <- app_assoc. cbn [app]. reflexivity.
Qed.

(** The objects that the regression step returns, handed to the forecaster,
    give the forecast of the fitted lines, and the forecaster leaves the
    store as the regression step left it. *)
Lemma obj_regression_then_forecast (df : Dataset) (base_year years_ahead : Z)
    (s : Obj.Store) :
  df <> [] ->
  exists model_market model_adoption market_r2 adoption_r2 rm ra s',
    perform_regression df (Obj.world s)
    = (inr (model_market, model_adoption, market_r2, adoption_r2), Obj.world s') /\
    Obj.perform_regression df s = (inr (rm, ra, market_r2, adoption_r2), s') /\
    Obj.generate_future_predictions rm ra base_year years_ahead s'
    = (generate_future_predictions model_market model_adoption base_year years_ahead,
       s').
Proof.
  intros Hne. destruct (fits_defined df Hne) as (mm & ma & Hm & Ha).
  destruct (obj_perform_regression_run df mm ma s Hm Ha)
    as (r2m & r2a & w' & Hpure & Hobj).
  exists mm, ma, r2m, r2a. do 2 eexists.
  exists {| Obj.objects := (Obj.objects s ++ [Some mm; Some ma])%list;
            Obj.world := w' |}.
  split; [exact Hpure|]. split; [exact Hobj|].
  rewrite forecaster_run. cbn [Obj.objects].
  rewrite (nth_error_after _ (Obj.objects s) [Some ma] (Some mm)).
  replace (Obj.objects s ++ [Some mm; Some ma])%list
    with ((Obj.objects s ++ [Some mm]) ++ [Some ma])%list by (now rewrite <- app_assoc).
  replace (S (List.length (Obj.objects s)))
    with (List.length (Obj.objects s ++ [Some mm]))
    by (rewrite length_app, Nat.add_1_r; reflexivity).
  rewrite (nth_error_after _ (Obj.objects s ++ [Some mm]) [] (Some ma)).
  reflexivity.
Qed.

(** ** The claims about the files *)

(** C5.  When data/ai_market.csv is absent, reading it raises
    FileNotFoundError, the loader reports it and returns None, and the script
    returns normally having printed its banner and the line
    "Error: ai_market.csv not found in data/ directory" and nothing else; the
    file store is left as it was, so neither result file is written. *)
Theorem missing_input_halts (w : World) :
  files w data_path = None ->
  exists w',
    main w = (inr tt, w') /\
    files w' = files w /\
    files w' csv_path = files w csv_path /\
    files w' json_path = files w json_path /\
    stdout w' = (stdout w
                 ++ [[Str "=== AI Market Analysis Started ==="];
                     [Str "Error: ai_market.csv not found in data/ directory"]])%list /\
    (forall out, read_csv data_path {| files := files w; stdout := out |}
                 = (inl FileNotFoundError, {| files := files w; stdout := out |})) /\
    (forall out, fst (load_data {| files := files w; stdout := out |}) = inr None).
Proof.
  intros Hfile. eexists. split.
  - unfold main. step_print.
    erewrite bind_run by (apply load_data_missing; exact Hfile).
    cbv beta iota. reflexivity.
  - cbn [files stdout]. repeat split.
    + now rewrite <- app_assoc.
    + intros out. apply load_data_missing. exact Hfile.
    + intros out.
      destruct (load_data_missing {| files := files w; stdout := out |} Hfile) as [_ H].
      now rewrite H.
Qed.

Lemma missing_input_halts_witness :
  files empty_world data_path = None /\
  exists w',
    main empty_world = (inr tt, w') /\
    files w' csv_path = None /\
    files w' json_path = None.
Proof.
  split; [reflexivity|].
  destruct (missing_input_halts empty_world eq_refl) as (w' & Hrun & _ & Hc & Hj & _).
  exists w'. repeat split; assumption.
Defined.

Lemma to_csv_lines (df_original : Dataset) (df_predictions : list Forecast.row) :
  lines (to_csv (map historical_row df_original ++ map predicted_row df_predictions)%list)
  = (map (fun r => [IntField (Year r); NumField (MarketSize r);
                    NumField (AdoptionRate r); Empty; Empty; Text "Historical"])
         df_original
     ++ map (fun p => [IntField (Forecast.Year p); Empty; Empty;
                       NumField (Forecast.PredictedMarketSize p);
                       NumField (Forecast.PredictedAdoptionRate p); Text "Predicted"])
            df_predictions)%list.
Proof.
  unfold to_csv. cbn [lines]. now rewrite map_app, !map_map.
Qed.

(** What [save_results] leaves behind: the two files, and nothing else
    touched. *)
Lemma save_results_files (df_original : Dataset) (df_predictions : list Forecast.row)
    (market_r2 adoption_r2 : pyfloat) (w : World) :
  exists w',
    save_results df_original df_predictions market_r2 adoption_r2 w
    = (inr (report df_original df_predictions market_r2 adoption_r2), w') /\
    files w' csv_path
    = Some (ResultsCsv (to_csv (map historical_row df_original
                                  ++ map predicted_row df_predictions)%list)) /\
    files w' json_path
    = Some (ResultsJson (report df_original df_predictions market_r2 adoption_r2)).
Proof.
  eexists. split; [apply save_results_run|]. split; reflexivity.
Qed.

(** C6.  The CSV written by [save_results] has the header line
    Year,MarketSize,AdoptionRate,PredictedMarketSize,PredictedAdoptionRate,Type;
    its lines are one line per historical record, with the two predicted
    fields empty and Type Historical, followed by one line per forecast row,
    with the two raw fields empty and Type Predicted. *)
Theorem written_csv_shape (df_original : Dataset) (df_predictions : list Forecast.row)
    (market_r2 adoption_r2 : pyfloat) (w : World) :
  exists j w' c,
    save_results df_original df_predictions market_r2 adoption_r2 w = (inr j, w') /\
    files w' csv_path = Some (ResultsCsv c) /\
    header_line c
    = "Year,MarketSize,AdoptionRate,PredictedMarketSize,PredictedAdoptionRate,Type" /\
    lines c
    = (map (fun r => [IntField (Year r); NumField (MarketSize r);
                      NumField (AdoptionRate r); Empty; Empty; Text "Historical"])
           df_original
       ++ map (fun p => [IntField (Forecast.Year p); Empty; Empty;
                         NumField (Forecast.PredictedMarketSize p);
                         NumField (Forecast.PredictedAdoptionRate p); Text "Predicted"])
              df_predictions)%list.
Proof.
  destruct (save_results_files df_original df_predictions market_r2 adoption_r2 w)
    as (w' & Hrun & Hcsv & _).
  do 3 eexists. split; [exact Hrun|]. split; [exact Hcsv|].
  split; [reflexivity | apply to_csv_lines].
Qed.

Lemma consecutive_years_sorted (A : Z) (s n : nat) :
  StronglySorted Z.lt (map (fun k => (A + (1 + Z.of_nat k))%Z) (seq s n)).
Proof.
  revert s. induction n as [|n IH]; intros s; cbn [seq map].
  - constructor.
  - constructor; [apply IH|].
    apply Forall_forall. intros y Hy. apply in_map_iff in Hy as (k & <- & Hk).
    apply in_seq in Hk. lia.
Qed.

Lemma forecast_years_sorted (model_market model_adoption : LinearRegression)
    (base_year years_ahead : Z) (rows : list Forecast.row) :
  generate_future_predictions model_market model_adoption base_year years_ahead
  = inr rows ->
  StronglySorted Z.lt (map Forecast.Year rows).
Proof.
  intros Hgen. destruct (Z_le_gt_dec 1 years_ahead) as [Hn | Hn].
  - rewrite generate_future_predictions_rows in Hgen by exact Hn.
    injection Hgen as <-. rewrite map_map. cbn [forecast_row Forecast.Year].
    apply consecutive_years_sorted.
  - rewrite generate_future_predictions_none in Hgen by lia. discriminate.
Qed.

(** C10.  For a data set of n rows and a forecast of N rows made by the
    forecaster, the CSV written by [save_results] has n + N lines: the first
    n are the historical records in their load order, the remaining N the
    forecast rows in the forecaster's order, which is increasing in the
    year.  The JSON report lists the same n historical records and the same
    N forecast years in the same orders. *)
Theorem merged_output_order
    (model_market model_adoption : LinearRegression) (base_year years_ahead : Z)
    (df_original : Dataset) (df_predictions : list Forecast.row)
    (market_r2 adoption_r2 : pyfloat) (w : World) :
  generate_future_predictions model_market model_adoption base_year years_ahead
  = inr df_predictions ->
  exists j w' c,
    save_results df_original df_predictions market_r2 adoption_r2 w = (inr j, w') /\
    files w' csv_path = Some (ResultsCsv c) /\
    files w' json_path = Some (ResultsJson j) /\
    List.length (lines c) = (List.length df_original + List.length df_predictions)%nat /\
    firstn (List.length df_original) (lines c)
    = map (fun r => [IntField (Year r); NumField (MarketSize r);
                     NumField (AdoptionRate r); Empty; Empty; Text "Historical"])
          df_original /\
    skipn (List.length df_original) (lines c)
    = map (fun p => [IntField (Forecast.Year p); Empty; Empty;
                     NumField (Forecast.PredictedMarketSize p);
                     NumField (Forecast.PredictedAdoptionRate p); Text "Predicted"])
          df_predictions /\
    StronglySorted Z.lt (map Forecast.Year df_predictions) /\
    List.length (historical_data j) = List.length df_original /\
    map (fun e => (HistoricalEntry.year e, HistoricalEntry.market_size e,
                   HistoricalEntry.adoption_rate e)) (historical_data j)
    = map (fun r => (Year r, MarketSize r, AdoptionRate r)) df_original /\
    List.length (predictions j) = List.length df_predictions /\
    map PredictionEntry.year (predictions j) = map Forecast.Year df_predictions.
Proof.
  intros Hgen.
  destruct (save_results_files df_original df_predictions market_r2 adoption_r2 w)
    as (w' & Hrun & Hcsv & Hjson).
  do 3 eexists. split; [exact Hrun|]. split; [exact Hcsv|]. split; [exact Hjson|].
  rewrite to_csv_lines.
  set (hist := map _ df_original). set (pred := map _ df_predictions).
  assert (Hlen : List.length hist = List.length df_original)
    by (unfold hist; apply length_map).
  split; [rewrite length_app, Hlen; unfold pred; now rewrite length_map|].
  split; [rewrite <- Hlen, firstn_app, Nat.sub_diag, firstn_all;
          cbn [firstn]; apply app_nil_r|].
  split; [rewrite <- Hlen, skipn_app, Nat.sub_diag, skipn_all;
          reflexivity|].
  split; [exact (forecast_years_sorted _ _ _ _ _ Hgen)|].
  unfold report. cbn [historical_data predictions].
  rewrite !length_map, !map_map. cbn.
  repeat split; reflexivity.
Qed.

Lemma merged_output_order_witness :
  generate_future_predictions {| coef_ := 50; intercept_ := -100900 |}
    {| coef_ := 5; intercept_ := -10090 |} 2024 2
  = inr (map (forecast_row {| coef_ := 50; intercept_ := -100900 |}
                           {| coef_ := 5; intercept_ := -10090 |}) [2025; 2026]%Z) /\
  exists j w' c,
    save_results scenario
      (map (forecast_row {| coef_ := 50; intercept_ := -100900 |}
                         {| coef_ := 5; intercept_ := -10090 |}) [2025; 2026]%Z)
      (fin 1) (fin 1) (world_with scenario) = (inr j, w') /\
    files w' csv_path = Some (ResultsCsv c) /\
    files w' json_path = Some (ResultsJson j) /\
    List.length (lines c) = 5%nat.
Proof.
  split; [reflexivity|].
  destruct (merged_output_order {| coef_ := 50; intercept_ := -100900 |}
              {| coef_ := 5; intercept_ := -10090 |} 2024 2 scenario
              (map (forecast_row {| coef_ := 50; intercept_ := -100900 |}
                                 {| coef_ := 5; intercept_ := -10090 |}) [2025; 2026]%Z)
              (fin 1) (fin 1) (world_with scenario) eq_refl)
    as (j & w' & c & H1 & H2 & H3 & H4 & _).
  exists j, w', c. repeat split; assumption.
Defined.

(** ** The forecast years of the whole script *)

(** A successful run writes the report, and its forecast years are the five
    years after the fixed base year. *)
Lemma main_report (w : World) (df : Dataset) :
  files w data_path = Some (MarketCsv df) ->
  df <> [] ->
  exists j w',
    main w = (inr tt, w') /\
    files w' json_path = Some (ResultsJson j) /\
    map PredictionEntry.year (predictions j) = [2025; 2026; 2027; 2028; 2029]%Z.
Proof.
  intros Hfile Hne.
  destruct (main_run w df Hfile Hne) as (mm & ma & w' & _ & _ & Hrun & Hfiles).
  eexists. exists w'. split; [exact Hrun|]. rewrite Hfiles. split; reflexivity.
Qed.

(** C1 as stated fails: on a table whose years are 2029 and 2030 the
    script forecasts 2025 to 2029, which are not after the last historical
    year. *)
Lemma forecast_not_after_late_history :
  exists j w',
    main (world_with late_dataset) = (inr tt, w') /\
    files w' json_path = Some (ResultsJson j) /\
    ~ (forall p r, In p (predictions j) -> In r late_dataset ->
                   (Year r < PredictionEntry.year p)%Z).
Proof.
  destruct (main_report (world_with late_dataset) late_dataset eq_refl)
    as (j & w' & Hrun & Hjson & Hyears); [discriminate|].
  exists j, w'. split; [exact Hrun|]. split; [exact Hjson|].
  intros Hall.
  destruct (predictions j) as [|p ps] eqn:Ep; [discriminate|].
  injection Hyears as Hp _.
  specialize (Hall p {| Year := 2030; MarketSize := 20; AdoptionRate := 2 |}
                (or_introl eq_refl) (or_intror (or_introl eq_refl))).
  cbn [Year] in Hall. lia.
Qed.

(** C1, as the code has it.  Whatever non-empty table is loaded, the script
    forecasts the years 2025, 2026, 2027, 2028, 2029 (base year 2024, horizon
    5); every forecast year lies after every historical year exactly when
    no historical year is later than 2024. *)
Theorem pipeline_forecast_years (w : World) (df : Dataset) :
  files w data_path = Some (MarketCsv df) ->
  df <> [] ->
  exists j w',
    main w = (inr tt, w') /\
    files w' json_path = Some (ResultsJson j) /\
    map PredictionEntry.year (predictions j) = [2025; 2026; 2027; 2028; 2029]%Z /\
    ((forall p r, In p (predictions j) -> In r df ->
                  (Year r < PredictionEntry.year p)%Z)
     <-> (forall r, In r df -> (Year r <= 2024)%Z)).
Proof.
  intros Hfile Hne.
  destruct (main_report w df Hfile Hne) as (j & w' & Hrun & Hjson & Hyears).
  exists j, w'. split; [exact Hrun|]. split; [exact Hjson|]. split; [exact Hyears|].
  split.
  - intros Hall r Hr.
    destruct (predictions j) as [|p ps] eqn:Ep; [discriminate|].
    injection Hyears as Hp _.
    specialize (Hall p r (or_introl eq_refl) Hr). lia.
  - intros Hold p r Hp Hr. specialize (Hold r Hr).
    assert (Hin : In (PredictionEntry.year p) [2025; 2026; 2027; 2028; 2029]%Z).
    { rewrite <- Hyears. now apply in_map. }
    simpl in Hin. lia.
Qed.

Lemma pipeline_forecast_years_witness :
  files (world_with scenario) data_path = Some (MarketCsv scenario) /\
  scenario <> [] /\
  exists j w',
    main (world_with scenario) = (inr tt, w') /\
    files w' json_path = Some (ResultsJson j) /\
    map PredictionEntry.year (predictions j) = [2025; 2026; 2027; 2028; 2029]%Z.
Proof.
  split; [reflexivity|]. split; [discriminate|].
  destruct (pipeline_forecast_years (world_with scenario) scenario eq_refl)
    as (j & w' & H1 & H2 & H3 & _); [discriminate|].
  exists j, w'. repeat split; assumption.
Defined.

(** * Further properties of the script *)

(** ** The result writer *)

Lemma write_file_other (path p : string) (f : file) (w : World) :
  p <> path -> files (write_file path f w) p = files w p.
Proof.
  intros Hne. unfold write_file. cbn [files].
  destruct (String.eqb p path) eqn:E; [|reflexivity].
  apply String.eqb_eq in E. contradiction.
Qed.

(** ** Rounding in the report *)

Lemma round_half_even_close (q : Q) :
  - (1 # 2) <= inject_Z (round_half_even q) - q <= 1 # 2.
Proof.
  unfold round_half_even.
  pose proof (Qfloor_le q) as Hlo. pose proof (Qlt_floor q) as Hhi.
  rewrite inject_Z_plus in Hhi. change (inject_Z 1) with 1 in Hhi.
  destruct (Qcompare (q - inject_Z (Qfloor q)) (1 # 2)) eqn:E.
  - apply Qeq_alt in E.
    destruct (Z.even (Qfloor q)).
    + split; lra.
    + rewrite inject_Z_plus. change (inject_Z 1) with 1. split; lra.
  - apply Qlt_alt in E. split; lra.
  - apply Qgt_alt in E. rewrite inject_Z_plus. change (inject_Z 1) with 1.
    split; lra.
Qed.

Lemma round_close (x : Q) (ndigits : nat) :
  - (1 # 2) / inject_Z (10 ^ Z.of_nat ndigits) <= round x ndigits - x
  <= (1 # 2) / inject_Z (10 ^ Z.of_nat ndigits).
Proof.
  unfold round. set (s := inject_Z (10 ^ Z.of_nat ndigits)).
  assert (Hs : 0 < s).
  { unfold s. change 0 with (inject_Z 0). rewrite <- Zlt_Qlt.
    apply Z.pow_pos_nonneg; lia. }
  destruct (round_half_even_close (x * s)) as [Hlo Hhi].
  set (k := inject_Z (round_half_even (x * s))) in *.
  assert (E : k / s - x == (k - x * s) / s) by (field; lra).
  rewrite E. unfold Qdiv.
  assert (Hi : 0 <= / s) by (apply Qinv_le_0_compat; lra).
  split; apply Qmult_le_compat_r; assumption.
Qed.

Lemma round_2_close (x : Q) :
  - (1 # 200) <= round x 2 - x <= 1 # 200.
Proof.
  pose proof (round_close x 2) as H.
  change (inject_Z (10 ^ Z.of_nat 2)) with 100 in H.
  setoid_replace ((1 # 2) / 100) with (1 # 200) in H by reflexivity.
  exact H.
Qed.

(** X4.  The report and the table agree on the forecast: entry i of the
    JSON predictions has the year of forecast row i, and its two values are
    those of the row rounded to two decimals, so each is within 0.005 of the
    unrounded value that the CSV carries. *)
Theorem report_predictions_close
    (df_original : Dataset) (df_predictions : list Forecast.row)
    (market_r2 adoption_r2 : pyfloat) (w : World) :
  exists j w',
    save_results df_original df_predictions market_r2 adoption_r2 w = (inr j, w') /\
    files w' json_path = Some (ResultsJson j) /\
    Forall2 (fun p e =>
               PredictionEntry.year e = Forecast.Year p /\
               - (1 # 200) <= PredictionEntry.predicted_market_size e
                              - Forecast.PredictedMarketSize p <= 1 # 200 /\
               - (1 # 200) <= PredictionEntry.predicted_adoption_rate e
                              - Forecast.PredictedAdoptionRate p <= 1 # 200)
            df_predictions (predictions j).
Proof.
  destruct (save_results_files df_original df_predictions market_r2 adoption_r2 w)
    as (w' & Hrun & _ & Hjson).
  do 2 eexists. split; [exact Hrun|]. split; [exact Hjson|].
  unfold report. cbn [predictions]. clear.
  induction df_predictions as [|p ps IH]; cbn [map]; constructor.
  - cbn [PredictionEntry.year PredictionEntry.predicted_market_size
         PredictionEntry.predicted_adoption_rate].
    split; [reflexivity|]. split; apply round_2_close.
  - apply IH.
Qed.

(** ** Every way the script can end *)

Lemma bind_raise {A B : Type} (m : M A) (k : A -> M B) (w w' : World) (e : exn) :
  m w = (inl e, w') -> bind m k w = (inl e, w').
Proof. intros H. unfold bind. now rewrite H. Qed.

Lemma main_empty_run (w : World) :
  files w data_path = Some (MarketCsv []) ->
  main w =
    (inl ValueError,
     {| files := files w;
        stdout := stdout w
          ++ [[Str "=== AI Market Analysis Started ==="];
              [Str "Loaded "; Len 0; Str " records from "; Str data_path];
              [Str (newline ++ "Dataset Overview:")];
              [Head []];
              [Str (newline ++ "Data shape: "); ShapeOf 0 3];
              [Str (newline ++ "=== Performing Linear Regression ===")]] |}).
Proof.
  intros Hfile. unfold main. step_print.
  erewrite bind_run by (apply load_data_present; exact Hfile).
  cbv beta iota. cbn [files stdout]. repeat step_print.
  erewrite bind_raise by apply perform_regression_empty.
  cbn [firstn List.length]. repeat rewrite <- app_assoc. reflexivity.
Qed.

(** X5.  A table that is present but has no rows stops the script with an
    uncaught ValueError raised by the fit, after the load and overview lines
    have been printed; nothing is written to the file store. *)
Theorem empty_table_raises (w : World) :
  files w data_path = Some (MarketCsv []) ->
  exists w',
    main w = (inl ValueError, w') /\
    files w' = files w /\
    stdout w' = (stdout w
      ++ [[Str "=== AI Market Analysis Started ==="];
          [Str "Loaded "; Len 0; Str " records from "; Str data_path];
          [Str (newline ++ "Dataset Overview:")];
          [Head []];
          [Str (newline ++ "Data shape: "); ShapeOf 0 3];
          [Str (newline ++ "=== Performing Linear Regression ===")]])%list.
Proof.
  intros Hfile. eexists. split; [now apply main_empty_run|].
  split; reflexivity.
Qed.

Lemma empty_table_raises_witness :
  files (world_with []) data_path = Some (MarketCsv []) /\
  exists w',
    main (world_with []) = (inl ValueError, w') /\
    files w' csv_path = None /\
    files w' json_path = None.
Proof.
  split; [reflexivity|].
  destruct (empty_table_raises (world_with []) eq_refl) as (w' & Hrun & Hfiles & _).
  exists w'. split; [exact Hrun|]. rewrite Hfiles. split; reflexivity.
Defined.

(** X7.  Running the script again changes nothing: after a successful run
    the input file still holds the table it held, a second run succeeds too,
    and it leaves every path of the file store holding what the first run
    left there. *)
Theorem main_rerun_stable (w : World) (df : Dataset) :
  files w data_path = Some (MarketCsv df) ->
  df <> [] ->
  exists w1 w2,
    main w = (inr tt, w1) /\
    files w1 data_path = Some (MarketCsv df) /\
    main w1 = (inr tt, w2) /\
    (forall p, files w2 p = files w1 p).
Proof.
  intros Hfile Hne.
  destruct (main_run w df Hfile Hne) as (mm & ma & w1 & Hm & Ha & Hrun1 & Hfiles1).
  assert (Hfile1 : files w1 data_path = Some (MarketCsv df)).
  { rewrite Hfiles1. rewrite !write_file_other by discriminate. exact Hfile. }
  destruct (main_run w1 df Hfile1 Hne) as (mm' & ma' & w2 & Hm' & Ha' & Hrun2 & Hfiles2).
  assert (mm' = mm) by congruence. assert (ma' = ma) by congruence. subst mm' ma'.
  exists w1, w2. split; [exact Hrun1|]. split; [exact Hfile1|].
  split; [exact Hrun2|].
  intros p. rewrite Hfiles2. unfold write_file. cbn [files].
  rewrite Hfiles1. unfold write_file. cbn [files].
  destruct (String.eqb p json_path); [reflexivity|].
  destruct (String.eqb p csv_path); reflexivity.
Qed.

Lemma main_rerun_stable_witness :
  files (world_with scenario) data_path = Some (MarketCsv scenario) /\
  scenario <> [] /\
  exists w1 w2,
    main (world_with scenario) = (inr tt, w1) /\
    main w1 = (inr tt, w2) /\
    files w2 json_path = files w1 json_path.
Proof.
  split; [reflexivity|]. split; [discriminate|].
  destruct (main_rerun_stable (world_with scenario) scenario eq_refl)
    as (w1 & w2 & H1 & _ & H2 & H3); [discriminate|].
  exists w1, w2. split; [exact H1|]. split; [exact H2 | apply H3].
Defined.

(** ** More on the regression step *)

(** X9.  On a table with a single row the fit is the flat line through that
    row (slope 0, intercept the observed value) for both targets, so every
    forecast repeats the observed value, and both R² scores are NaN. *)
Theorem single_row_regression (r : MarketRecord) (w : World) :
  exists model_market model_adoption w',
    perform_regression [r] w = (inr (model_market, model_adoption, nan, nan), w') /\
    coef_ model_market == 0 /\ intercept_ model_market == MarketSize r /\
    coef_ model_adoption == 0 /\ intercept_ model_adoption == AdoptionRate r /\
    (forall y,
       Forecast.PredictedMarketSize (forecast_row model_market model_adoption y)
       == MarketSize r /\
       Forecast.PredictedAdoptionRate (forecast_row model_market model_adoption y)
       == AdoptionRate r).
Proof.
  destruct (fits_defined [r] ltac:(discriminate)) as (mm & ma & Hm & Ha).
  exists mm, ma. eexists.
  split; [rewrite (perform_regression_run [r] mm ma w Hm Ha); reflexivity|].
  assert (Hflat : forall (target : MarketRecord -> Q) m,
            fit (map year_of [r]) (map target [r]) = inr m ->
            coef_ m == 0 /\ intercept_ m == target r).
  { intros target m Hfit. apply fit_inv in Hfit as (_ & Hc & Hi).
    assert (Hc0 : coef_ m == 0).
    { rewrite Hc. unfold lstsq.
      assert (E : Np.dot (map (fun x => x - Np.mean (map year_of [r])) (map year_of [r]))
                         (map (fun x => x - Np.mean (map year_of [r])) (map year_of [r]))
                  == 0).
      { unfold Np.dot, Np.mean, Np.size, Np.sum. cbn. field. }
      apply Qeq_bool_iff in E. rewrite E. reflexivity. }
    split; [exact Hc0|]. rewrite Hi, Hc0.
    unfold Np.mean, Np.size, Np.sum. cbn. field. }
  destruct (Hflat MarketSize mm Hm) as [Hmc Hmi].
  destruct (Hflat AdoptionRate ma Ha) as [Hac Hai].
  repeat (split; [assumption|]).
  intros y. unfold forecast_row.
  cbn [Forecast.PredictedMarketSize Forecast.PredictedAdoptionRate].
  rewrite Hmc, Hmi, Hac, Hai. split; ring.
Qed.

(** ** More on the forecaster *)

(** X12.  The forecaster needs a horizon of at least one year: it returns
    rows exactly when years_ahead >= 1, and for a horizon of zero or less it
    fails with ValueError instead of returning an empty forecast. *)
Theorem forecaster_needs_positive_horizon
    (model_market model_adoption : LinearRegression) (base_year years_ahead : Z) :
  ((1 <= years_ahead)%Z <->
   exists rows,
     generate_future_predictions model_market model_adoption base_year years_ahead
     = inr rows) /\
  ((years_ahead <= 0)%Z <->
   generate_future_predictions model_market model_adoption base_year years_ahead
   = inl ValueError).
Proof.
  destruct (Z_le_gt_dec 1 years_ahead) as [Hn | Hn].
  - pose proof (generate_future_predictions_rows model_market model_adoption
                  base_year years_ahead Hn) as E.
    split; split.
    + intros _. eexists. exact E.
    + intros _. exact Hn.
    + intros H. lia.
    + intros H. rewrite E in H. discriminate.
  - assert (Hle : (years_ahead <= 0)%Z) by lia.
    pose proof (generate_future_predictions_none model_market model_adoption
                  base_year years_ahead Hle) as E.
    split; split.
    + intros H. lia.
    + intros (rows & H). rewrite E in H. discriminate.
    + intros _. exact E.
    + intros _. exact Hle.
Qed.

(** ** The scores in the report *)

(** X15.  The two scores in the report are the R² scores passed to
    [save_results] rounded to four decimals: a NaN score stays NaN, and a
    numeric score moves by at most 0.00005. *)
Theorem report_scores_close
    (df_original : Dataset) (df_predictions : list Forecast.row)
    (market_r2 adoption_r2 : pyfloat) (w : World) :
  exists j w',
    save_results df_original df_predictions market_r2 adoption_r2 w = (inr j, w') /\
    files w' json_path = Some (ResultsJson j) /\
    (market_r2 = nan <-> market_r2_score (model_performance j) = nan) /\
    (adoption_r2 = nan <-> adoption_r2_score (model_performance j) = nan) /\
    (forall q, market_r2 = fin q ->
       exists q', market_r2_score (model_performance j) = fin q' /\
                  - (1 # 20000) <= q' - q <= 1 # 20000) /\
    (forall q, adoption_r2 = fin q ->
       exists q', adoption_r2_score (model_performance j) = fin q' /\
                  - (1 # 20000) <= q' - q <= 1 # 20000).
Proof.
  destruct (save_results_files df_original df_predictions market_r2 adoption_r2 w)
    as (w' & Hrun & _ & Hjson).
  do 2 eexists. split; [exact Hrun|]. split; [exact Hjson|].
  unfold report. cbn [model_performance market_r2_score adoption_r2_score].
  assert (Hbound : forall q, - (1 # 20000) <= round q 4 - q <= 1 # 20000).
  { intros q. pose proof (round_close q 4) as H.
    change (inject_Z (10 ^ Z.of_nat 4)) with 10000 in H.
    setoid_replace ((1 # 2) / 10000) with (1 # 20000) in H by reflexivity.
    exact H. }
  split; [destruct market_r2; cbn; split; intros H; (reflexivity || discriminate)|].
  split; [destruct adoption_r2; cbn; split; intros H; (reflexivity || discriminate)|].
  split.
  - intros q ->. eexists. split; [reflexivity | apply Hbound].
  - intros q ->. eexists. split; [reflexivity | apply Hbound].
Qed.
